(** * Cluster operations of the subscriber agent (package k8s, operations.go)

    A shallow embedding of [IsClusterConfirmed], [applyRequest] and
    [ClusterOperations].  The Kubernetes client libraries are external
    collaborators: they appear as a record of operations over an abstract
    backing-store state, and every call the Go code makes on them is
    recorded in a trace, so that statements such as "no update was
    submitted" can be written down. *)

From stdpp Require Import gmap strings list.
From Stdlib Require Import String Ascii.

Open Scope string_scope.

(** ** Errors (k8s.io/apimachinery/pkg/api/errors and fmt.Errorf) *)

Inductive StatusReason :=
| StatusReasonUnknown
| StatusReasonForbidden
| StatusReasonNotFound
| StatusReasonAlreadyExists
| StatusReasonConflict
| StatusReasonInvalid
| StatusReasonTimeout
| StatusReasonInternalError.

(* A Go [error] value that is not nil.  [StatusError] is what the API
   machinery returns; [errorString] is what fmt.Errorf builds. *)
Inductive error :=
| StatusError (reason : StatusReason) (message : string)
| errorString (message : string).

(* errors.IsNotFound and errors.IsAlreadyExists take a possibly nil error;
   nil is [None]. *)
Definition IsNotFound (err : option error) : bool :=
  match err with
  | Some (StatusError StatusReasonNotFound _) => true
  | _ => false
  end.

Definition IsAlreadyExists (err : option error) : bool :=
  match err with
  | Some (StatusError StatusReasonAlreadyExists _) => true
  | _ => false
  end.

(** ** Data model *)

(* unstructured.Unstructured, seen through the accessors the code uses
   (GetKind, GetName/SetName, GetLabels, GetResourceVersion/
   SetResourceVersion); everything else in the document is [uRest]. *)
Record Unstructured := mkUnstructured {
  uKind : string;
  uAPIVersion : string;
  uName : string;
  uLabels : gmap string string;
  uResourceVersion : string;
  uRest : list (string * string)
}.

Definition GetKind (u : Unstructured) : string := uKind u.
Definition GetName (u : Unstructured) : string := uName u.
Definition GetLabels (u : Unstructured) : gmap string string := uLabels u.
Definition GetResourceVersion (u : Unstructured) : string := uResourceVersion u.

Definition SetName (name : string) (u : Unstructured) : Unstructured :=
  mkUnstructured (uKind u) (uAPIVersion u) name (uLabels u)
                 (uResourceVersion u) (uRest u).

Definition SetResourceVersion (rv : string) (u : Unstructured) : Unstructured :=
  mkUnstructured (uKind u) (uAPIVersion u) (uName u) (uLabels u) rv (uRest u).

(* &unstructured.Unstructured{} *)
Definition emptyUnstructured : Unstructured :=
  mkUnstructured "" "" "" ∅ "" [].

(* Indexing a Go map of strings: a missing key reads as the empty string. *)
Definition index (m : gmap string string) (k : string) : string :=
  default "" (m !! k).

Record GroupVersionKind := mkGVK {
  gvkGroup : string;
  gvkVersion : string;
  gvkKind : string
}.

Record GroupVersionResource := mkGVR {
  gvrGroup : string;
  gvrVersion : string;
  gvrResource : string
}.

Inductive RESTScopeName := RESTScopeNameNamespace | RESTScopeNameRoot.

Definition RESTScopeName_eqb (a b : RESTScopeName) : bool :=
  match a, b with
  | RESTScopeNameNamespace, RESTScopeNameNamespace => true
  | RESTScopeNameRoot, RESTScopeNameRoot => true
  | _, _ => false
  end.

(* meta.RESTMapping: the resource-type descriptor. *)
Record RESTMapping := mkRESTMapping {
  mResource : GroupVersionResource;
  mScope : RESTScopeName
}.

(* dynamic.ResourceInterface as built by dynamicClient.Resource(r) and
   .Namespace(ns): the resource together with the namespace it is
   restricted to; Resource(r) alone leaves the namespace empty. *)
Record ResourceInterface := mkHandle {
  hResource : GroupVersionResource;
  hNamespace : string
}.

Definition Resource (r : GroupVersionResource) : ResourceInterface :=
  mkHandle r "".

Definition Namespace (ns : string) (h : ResourceInterface) : ResourceInterface :=
  mkHandle (hResource h) ns.

(* corev1.ConfigMap, reduced to its Data. *)
Record ConfigMap := mkConfigMap { cmData : gmap string string }.

Definition PortalConfigName : string := "litmus-portal-config".

(** ** The cluster: everything the code reaches through a client *)

(* One record for the external collaborators, over the backing store's
   own state [S].  A request either yields its object or an error. *)
Record Cluster (S : Type) := mkCluster {
  (* os.Getenv "AGENT_NAMESPACE" *)
  AgentNamespace : string;
  (* GetGenericK8sClient and GetDynamicAndDiscoveryClient: the error they
     return, if any *)
  GetGenericK8sClient : S -> option error;
  GetDynamicAndDiscoveryClient : S -> option error;
  (* yaml_converter.JSONToYAML and decUnstructured.Decode *)
  JSONToYAML : string -> string + error;
  Decode : string -> (Unstructured * GroupVersionKind) + error;
  (* the API catalog, as one discovery round trip answers it *)
  catalog : GroupVersionKind -> S -> RESTMapping + error;
  (* clientset.CoreV1().ConfigMaps(ns).Get(name) *)
  cmGet : string -> string -> S -> (ConfigMap + error) * S;
  (* the dynamic client *)
  apiCreate : ResourceInterface -> Unstructured -> S -> (Unstructured + error) * S;
  apiGet : ResourceInterface -> string -> S -> (Unstructured + error) * S;
  apiUpdate : ResourceInterface -> Unstructured -> S -> (Unstructured + error) * S;
  apiDelete : ResourceInterface -> string -> S -> option error * S;
  apiList : ResourceInterface -> string -> S -> (list Unstructured + error) * S
}.

Arguments AgentNamespace {S} _.
Arguments GetGenericK8sClient {S} _ _.
Arguments GetDynamicAndDiscoveryClient {S} _ _.
Arguments JSONToYAML {S} _ _.
Arguments Decode {S} _ _.
Arguments catalog {S} _ _ _.
Arguments cmGet {S} _ _ _ _.
Arguments apiCreate {S} _ _ _ _.
Arguments apiGet {S} _ _ _ _.
Arguments apiUpdate {S} _ _ _ _.
Arguments apiDelete {S} _ _ _ _.
Arguments apiList {S} _ _ _ _.

(** ** Calls, the process state and the monad *)

Inductive Event :=
| EvDiscovery (gvk : GroupVersionKind)
| EvConfigMapGet (ns name : string)
| EvCreate (h : ResourceInterface) (obj : Unstructured)
| EvGet (h : ResourceInterface) (name : string)
| EvUpdate (h : ResourceInterface) (obj : Unstructured)
| EvDelete (h : ResourceInterface) (name : string)
| EvList (h : ResourceInterface) (labelSelector : string)
| EvLog (line : string).

(* The process: the backing store, the package-level variable [dr]
   (nil until ClusterOperations assigns it) and the calls made so far,
   oldest first. *)
Record World (S : Type) := mkWorld {
  store : S;
  dr : option ResourceInterface;
  trace : list Event
}.

Arguments mkWorld {S} _ _ _.
Arguments store {S} _.
Arguments dr {S} _.
Arguments trace {S} _.

(* A Go call returns or panics. *)
Inductive Outcome (A : Type) :=
| Returned (a : A)
| Panicked (msg : string).

Arguments Returned {A} _.
Arguments Panicked {A} _.

Definition M (S A : Type) : Type := World S -> Outcome A * World S.

Definition ret {S A} (a : A) : M S A := fun w => (Returned a, w).

Definition panic {S A} (msg : string) : M S A := fun w => (Panicked msg, w).

Definition bind {S A B} (m : M S A) (k : A -> M S B) : M S B :=
  fun w =>
    match m w with
    | (Returned a, w') => k a w'
    | (Panicked msg, w') => (Panicked msg, w')
    end.

Notation "'let*' x ':=' m 'in' k" := (bind m (fun x => k))
  (at level 10, x pattern, m at level 100, k at level 200).

Section Operations.

Context {S : Type} (K : Cluster S).

(* The message of Go's panic on a nil receiver. *)
Definition nilDeref : string := "invalid memory address or nil pointer dereference".

(* log.Printf / log.Println *)
Definition log (line : string) : M S unit :=
  fun w => (Returned tt, mkWorld (store w) (dr w) (trace w ++ [EvLog line])).

(* One request to the backing store: record it, run it. *)
Definition request {A} (ev : Event) (op : S -> A * S) : M S A :=
  fun w =>
    let '(a, s') := op (store w) in
    (Returned a, mkWorld s' (dr w) (trace w ++ [ev])).

(* The package-level variable dr. *)
Definition set_dr (h : ResourceInterface) : M S unit :=
  fun w => (Returned tt, mkWorld (store w) (Some h) (trace w)).

(* Reading dr to call a method on it; calling a method on the nil
   interface panics. *)
Definition get_dr : M S ResourceInterface :=
  fun w =>
    match dr w with
    | Some h => (Returned h, w)
    | None => (Panicked nilDeref, w)
    end.

(* Go's (pointer, error) pair of a client call. *)
Definition pair_of {A} (r : A + error) : option A * option error :=
  match r with
  | inl a => (Some a, None)
  | inr e => (None, Some e)
  end.

Definition dr_Create (obj : Unstructured) : M S (option Unstructured * option error) :=
  let* h := get_dr in
  let* r := request (EvCreate h obj) (apiCreate K h obj) in
  ret (pair_of r).

Definition dr_Get (name : string) : M S (option Unstructured * option error) :=
  let* h := get_dr in
  let* r := request (EvGet h name) (apiGet K h name) in
  ret (pair_of r).

Definition dr_Update (obj : Unstructured) : M S (option Unstructured * option error) :=
  let* h := get_dr in
  let* r := request (EvUpdate h obj) (apiUpdate K h obj) in
  ret (pair_of r).

Definition dr_Delete (name : string) : M S (option error) :=
  let* h := get_dr in
  request (EvDelete h name) (apiDelete K h name).

Definition dr_List (labelSelector : string) : M S (option (list Unstructured) * option error) :=
  let* h := get_dr in
  let* r := request (EvList h labelSelector) (apiList K h labelSelector) in
  ret (pair_of r).

(* The typed client's Get hands back a pointer to a zero ConfigMap
   together with any error. *)
Definition ConfigMaps_Get (ns name : string) : M S (ConfigMap * option error) :=
  let* r := request (EvConfigMapGet ns name) (cmGet K ns name) in
  ret (match r with
       | inl cm => (cm, None)
       | inr e => (mkConfigMap ∅, Some e)
       end).

(** ** IsClusterConfirmed *)

Definition IsClusterConfirmed : M S (bool * string * option error) :=
  fun w =>
    match GetGenericK8sClient K (store w) with
    | Some err => ret (false, "", Some err) w
    | None =>
        (let* (getCM, err) := ConfigMaps_Get (AgentNamespace K) PortalConfigName in
         if IsNotFound err then ret (false, "", None)
         else if String.eqb (index (cmData getCM) "is_cluster_confirmed") "true"
         then ret (true, index (cmData getCM) "cluster_key", None)
         else if bool_decide (err <> None) then ret (false, "", err)
         else ret (false, "", None)) w
    end.

(** ** applyRequest *)

(* fmt.Errorf("err: %v\n", "Invalid Request") *)
Definition invalidRequest : error :=
  errorString ("err: Invalid Request" ++ String "010"%char "").

(* [obj] is a pointer in the source and SetResourceVersion writes through
   it, so the object as the call leaves it is returned next to the Go
   result pair (response, err). *)
Definition applyRequest (requestType : string) (obj : Unstructured)
  : M S (Unstructured * (option Unstructured * option error)) :=
  if String.eqb requestType "create" then
    let* (response, err) := dr_Create obj in
    if IsAlreadyExists err then
      let* _ := log "Already exists" in
      ret (obj, (None, None))
    else if bool_decide (err <> None) then
      ret (obj, (None, err))
    else
      let* _ := log "Resource successfully created" in
      ret (obj, (response, None))
  else if String.eqb requestType "update" then
    let* (getObj, err) := dr_Get (GetName obj) in
    if IsNotFound err then
      let* _ := log (GetName obj ++ " not found") in
      ret (obj, (None, None))
    else if bool_decide (err <> None) then
      ret (obj, (None, err))
    else
      match getObj with
      | None => panic nilDeref
      | Some live =>
          let obj := SetResourceVersion (GetResourceVersion live) obj in
          let* (response, err) := dr_Update obj in
          if bool_decide (err <> None) then
            ret (obj, (None, err))
          else
            let* _ := log "Resource successfully updated" in
            ret (obj, (response, None))
      end
  else if String.eqb requestType "delete" then
    let* err := dr_Delete (GetName obj) in
    if IsNotFound err then
      let* _ := log (GetName obj ++ " not found") in
      ret (obj, (None, None))
    else if bool_decide (err <> None) then
      ret (obj, (None, err))
    else
      let* _ := log "Resource successfully deleted" in
      ret (obj, (Some emptyUnstructured, None))
  else if String.eqb requestType "get" then
    let* (response, err) := dr_Get (GetName obj) in
    if IsNotFound err then
      let* _ := log (GetName obj ++ " not found") in
      ret (obj, (None, None))
    else if bool_decide (err <> None) then
      ret (obj, (None, err))
    else
      let* _ := log "Resource successfully retrieved" in
      ret (obj, (response, None))
  else
    ret (obj, (None, Some invalidRequest)).

(** ** The REST mapper over a memory cache *)

Definition cache_key (gvk : GroupVersionKind) : string * string * string :=
  (gvkGroup gvk, gvkVersion gvk, gvkKind gvk).

(** Modelled from the spec: memory.NewMemCacheClient and
    restmapper.NewDeferredDiscoveryRESTMapper are library code outside the
    sources; section 4.2 describes them as a discovery cache keyed by
    kind+version, which on a miss queries the cluster's API catalog and
    populates the cache.  A new cache is empty. *)
Definition NewMemCacheClient : gmap (string * string * string) RESTMapping := ∅.

Definition NewDeferredDiscoveryRESTMapper
    (cl : gmap (string * string * string) RESTMapping)
  : gmap (string * string * string) RESTMapping := cl.

(** Modelled from the spec: mapper.RESTMapping, as section 4.2 has it; a
    kind+version absent from the catalog is an error and leaves the cache
    as it was.  The mapper after the call is returned with the answer. *)
Definition mapper_RESTMapping
    (mapper : gmap (string * string * string) RESTMapping)
    (gvk : GroupVersionKind)
  : M S (gmap (string * string * string) RESTMapping * (RESTMapping + error)) :=
  match mapper !! cache_key gvk with
  | Some mapping => ret (mapper, inl mapping)
  | None =>
      let* r := request (EvDiscovery gvk) (fun s => (catalog K gvk s, s)) in
      match r with
      | inl mapping => ret (<[cache_key gvk := mapping]> mapper, inl mapping)
      | inr err => ret (mapper, inr err)
      end
  end.

(** ** ClusterOperations *)

(* pods.Items[0]: indexing an empty slice panics. *)
Definition Items0 (pods : option (list Unstructured)) : M S Unstructured :=
  match pods with
  | None => panic nilDeref
  | Some items =>
      match items !! 0%nat with
      | Some item => ret item
      | None => panic "index out of range [0] with length 0"
      end
  end.

Definition ClusterOperations (manifest requestType namespace : string)
  : M S (option Unstructured * option error) :=
  match JSONToYAML K manifest with
  | inr err => ret (None, Some err)
  | inl yamlStr =>
    fun w =>
    match GetDynamicAndDiscoveryClient K (store w) with
    | Some err => ret (None, Some err) w
    | None =>
      let mapper := NewDeferredDiscoveryRESTMapper NewMemCacheClient in
      match Decode K yamlStr with
      | inr err => ret (None, Some err) w
      | inl (obj, gvk) =>
        (let* (_, found) := mapper_RESTMapping mapper gvk in
         match found with
         | inr err => ret (None, Some err)
         | inl mapping =>
           let* _ :=
             if RESTScopeName_eqb (mScope mapping) RESTScopeNameNamespace
             then set_dr (Namespace namespace (Resource (mResource mapping)))
             else set_dr (Resource (mResource mapping)) in
           if String.eqb (GetKind obj) "CronWorkflow"
              || String.eqb (GetKind obj) "Workflow"
           then
             let labels := GetLabels obj in
             let* (pods, err) := dr_List (index labels "workflow_id") in
             if bool_decide (err <> None) then
               ret (None, None)
             else
               let* item := Items0 pods in
               let obj := SetName (GetName item) obj in
               let* r := applyRequest requestType obj in
               ret (snd r)
           else
             let* r := applyRequest requestType obj in
             ret (snd r)
         end) w
      end
    end
  end.

End Operations.

Arguments log {S} _ _.
Arguments set_dr {S} _ _.
Arguments get_dr {S} _.

(** ** Vocabulary of the statements *)

Definition is_discovery (ev : Event) : bool :=
  match ev with
  | EvDiscovery _ => true
  | _ => false
  end.

(* The number of discovery queries in a trace. *)
Definition discoveries (t : list Event) : nat :=
  List.length (List.filter is_discovery t).

(* A call extends the trace by [evs], none of them a discovery query, and
   leaves dr alone. *)
Definition quiet {S A} (m : M S A) : Prop :=
  forall w, exists evs,
    trace (snd (m w)) = (trace w ++ evs)%list
    /\ discoveries evs = 0
    /\ dr (snd (m w)) = dr w.

(* The kinds whose target is found by label. *)
Definition labelAddressed (obj : Unstructured) : bool :=
  String.eqb (GetKind obj) "CronWorkflow" || String.eqb (GetKind obj) "Workflow".

(* The handle ClusterOperations assigns to dr for a descriptor. *)
Definition boundHandle (mapping : RESTMapping) (namespace : string)
  : ResourceInterface :=
  if RESTScopeName_eqb (mScope mapping) RESTScopeNameNamespace
  then Namespace namespace (Resource (mResource mapping))
  else Resource (mResource mapping).

Section Vocabulary.

Context {S : Type} (K : Cluster S).

(* What the backing store must do for a second create to be benign: a
   create of an object that a create has just stored reports
   "already exists". *)
Definition reports_existing : Prop :=
  forall h obj s created s1,
    apiCreate K h obj s = (inl created, s1) ->
    exists e s2, apiCreate K h obj s1 = (inr e, s2)
                 /\ IsAlreadyExists (Some e) = true.

(* The manifest converts and decodes to [obj] of type [gvk], and the
   clients can be built: the call gets as far as type resolution. *)
Definition decodes (manifest : string) (s : S) (obj : Unstructured)
    (gvk : GroupVersionKind) : Prop :=
  exists yamlStr,
    JSONToYAML K manifest = inl yamlStr
    /\ GetDynamicAndDiscoveryClient K s = None
    /\ Decode K yamlStr = inl (obj, gvk).

(* ... and the catalog knows the type. *)
Definition resolves (manifest : string) (s : S) (obj : Unstructured)
    (gvk : GroupVersionKind) (mapping : RESTMapping) : Prop :=
  decodes manifest s obj gvk /\ catalog K gvk s = inl mapping.

(* What follows the assignment of dr. *)
Definition retargetAndApply (requestType : string) (obj : Unstructured)
  : M S (option Unstructured * option error) :=
  if labelAddressed obj then
    let* (pods, err) := dr_List K (index (GetLabels obj) "workflow_id") in
    if bool_decide (err <> None) then ret (None, None)
    else
      let* item := Items0 pods in
      let* r := applyRequest K requestType (SetName (GetName item) obj) in
      ret (snd r)
  else
    let* r := applyRequest K requestType obj in
    ret (snd r).

End Vocabulary.

(** ** A small cluster in memory

    One instance of [Cluster], used to run the operations on concrete
    inputs: objects are kept per handle and name, a create of a present
    name reports "already exists", a get, update or delete of an absent one
    reports "not found", and every request in the namespace [locked] is
    refused. *)

Module MemCluster.

Record MemStore := mkMemStore {
  objects : list (ResourceInterface * Unstructured);
  portalConfig : option ConfigMap;
  reachable : bool
}.

Definition gvr_eqb (a b : GroupVersionResource) : bool :=
  String.eqb (gvrGroup a) (gvrGroup b)
  && String.eqb (gvrVersion a) (gvrVersion b)
  && String.eqb (gvrResource a) (gvrResource b).

Definition handle_eqb (a b : ResourceInterface) : bool :=
  gvr_eqb (hResource a) (hResource b)
  && String.eqb (hNamespace a) (hNamespace b).

Definition is_entry (h : ResourceInterface) (name : string)
    (e : ResourceInterface * Unstructured) : bool :=
  handle_eqb h (fst e) && String.eqb name (uName (snd e)).

Definition lookup_obj (h : ResourceInterface) (name : string) (s : MemStore)
  : option Unstructured :=
  snd <$> List.find (is_entry h name) (objects s).

Definition remove_obj (h : ResourceInterface) (name : string) (s : MemStore)
  : list (ResourceInterface * Unstructured) :=
  List.filter (fun e => negb (is_entry h name e)) (objects s).

Definition with_objects (s : MemStore) (l : list (ResourceInterface * Unstructured))
  : MemStore :=
  mkMemStore l (portalConfig s) (reachable s).

Definition locked (h : ResourceInterface) : bool :=
  String.eqb (hNamespace h) "locked".

Definition forbidden : error := StatusError StatusReasonForbidden "forbidden".
Definition notFound (name : string) : error :=
  StatusError StatusReasonNotFound (name ++ " not found").
Definition alreadyExists (name : string) : error :=
  StatusError StatusReasonAlreadyExists (name ++ " already exists").

Definition create (h : ResourceInterface) (obj : Unstructured) (s : MemStore)
  : (Unstructured + error) * MemStore :=
  if locked h then (inr forbidden, s)
  else match lookup_obj h (uName obj) s with
       | Some _ => (inr (alreadyExists (uName obj)), s)
       | None =>
           let stored := SetResourceVersion "1" obj in
           (inl stored, with_objects s (objects s ++ [(h, stored)]))
       end.

Definition get (h : ResourceInterface) (name : string) (s : MemStore)
  : (Unstructured + error) * MemStore :=
  if locked h then (inr forbidden, s)
  else match lookup_obj h name s with
       | Some o => (inl o, s)
       | None => (inr (notFound name), s)
       end.

Definition update (h : ResourceInterface) (obj : Unstructured) (s : MemStore)
  : (Unstructured + error) * MemStore :=
  if locked h then (inr forbidden, s)
  else match lookup_obj h (uName obj) s with
       | None => (inr (notFound (uName obj)), s)
       | Some live =>
           if String.eqb (uResourceVersion live) (uResourceVersion obj) then
             let stored := SetResourceVersion (uResourceVersion live ++ "1") obj in
             (inl stored,
              with_objects s (remove_obj h (uName obj) s ++ [(h, stored)]))
           else (inr (StatusError StatusReasonConflict "conflict"), s)
       end.

Definition delete (h : ResourceInterface) (name : string) (s : MemStore)
  : option error * MemStore :=
  if locked h then (Some forbidden, s)
  else match lookup_obj h name s with
       | Some _ => (None, with_objects s (remove_obj h name s))
       | None => (Some (notFound name), s)
       end.

Definition list_ (h : ResourceInterface) (labelSelector : string) (s : MemStore)
  : (list Unstructured + error) * MemStore :=
  if locked h then (inr forbidden, s)
  else (inl (snd <$> List.filter
               (fun e => handle_eqb h (fst e)
                         && String.eqb (index (uLabels (snd e)) "workflow_id")
                                       labelSelector)
               (objects s)), s).

Definition configMapGet (ns name : string) (s : MemStore)
  : (ConfigMap + error) * MemStore :=
  if String.eqb ns "locked" then (inr forbidden, s)
  else match portalConfig s with
       | Some cm => (inl cm, s)
       | None => (inr (notFound name), s)
       end.

Definition unreachable : error := errorString "cluster unreachable".

Definition clients (s : MemStore) : option error :=
  if reachable s then None else Some unreachable.

(* The installed resource types. *)
Definition types (gvk : GroupVersionKind) (_ : MemStore) : RESTMapping + error :=
  if String.eqb (gvkKind gvk) "ConfigMap" then
    inl (mkRESTMapping (mkGVR "" "v1" "configmaps") RESTScopeNameNamespace)
  else if String.eqb (gvkKind gvk) "Namespace" then
    inl (mkRESTMapping (mkGVR "" "v1" "namespaces") RESTScopeNameRoot)
  else if String.eqb (gvkKind gvk) "Workflow" then
    inl (mkRESTMapping (mkGVR "argoproj.io" "v1alpha1" "workflows")
                       RESTScopeNameNamespace)
  else if String.eqb (gvkKind gvk) "CronWorkflow" then
    inl (mkRESTMapping (mkGVR "argoproj.io" "v1alpha1" "cronworkflows")
                       RESTScopeNameNamespace)
  else inr (errorString ("no matches for kind " ++ gvkKind gvk)).

(* The manifests the examples use, by the name of the document. *)
Definition cfg1 : Unstructured :=
  mkUnstructured "ConfigMap" "v1" "cfg1" ∅ "" [("data.colour", "blue")].

Definition ns1 : Unstructured :=
  mkUnstructured "Namespace" "v1" "team-a" ∅ "" [].

Definition wf1 : Unstructured :=
  mkUnstructured "Workflow" "argoproj.io/v1alpha1" "requested"
                 {["workflow_id" := "wf-1"]} "" [].

Definition decode (doc : string) : (Unstructured * GroupVersionKind) + error :=
  if String.eqb doc "cfg1.json" then inl (cfg1, mkGVK "" "v1" "ConfigMap")
  else if String.eqb doc "ns1.json" then inl (ns1, mkGVK "" "v1" "Namespace")
  else if String.eqb doc "wf1.json" then
    inl (wf1, mkGVK "argoproj.io" "v1alpha1" "Workflow")
  else inr (errorString "Object 'Kind' is missing").

(* The cluster as an agent running in [agentNamespace] sees it. *)
Definition clusterIn (agentNamespace : string) : Cluster MemStore :=
  mkCluster MemStore agentNamespace clients clients (fun doc => inl doc)
            decode types configMapGet create get update delete list_.

Definition cluster : Cluster MemStore := clusterIn "litmus".

Definition emptyStore : MemStore := mkMemStore [] None true.

(* A process that has made no call yet. *)
Definition start (s : MemStore) : World MemStore := mkWorld s None [].

(* Names for the values the examples use. *)
Definition configmaps : GroupVersionResource := mkGVR "" "v1" "configmaps".
Definition workflows : GroupVersionResource :=
  mkGVR "argoproj.io" "v1alpha1" "workflows".
Definition namespaces : GroupVersionResource := mkGVR "" "v1" "namespaces".

Definition cfgKind : GroupVersionKind := mkGVK "" "v1" "ConfigMap".
Definition wfKind : GroupVersionKind := mkGVK "argoproj.io" "v1alpha1" "Workflow".
Definition nsKind : GroupVersionKind := mkGVK "" "v1" "Namespace".

(* A process whose dr is already bound to the config maps of ns1. *)
Definition bound (s : MemStore) : World MemStore :=
  mkWorld s (Some (mkHandle configmaps "ns1")) [].

(* A store that holds cfg1 already. *)
Definition withCfg1 : MemStore :=
  mkMemStore [(mkHandle configmaps "ns1", SetResourceVersion "7" cfg1)] None true.

(* A store with the registration record. *)
Definition registered : MemStore :=
  mkMemStore []
    (Some (mkConfigMap {[ "is_cluster_confirmed" := "true";
                          "cluster_key" := "abc";
                          "cluster_id" := "123" ]}))
    true.

End MemCluster.

(** ** ClusterRegister *)

(* corev1.ConfigMap as ClusterRegister builds it: TypeMeta, the name of
   ObjectMeta and Data. *)
Record ConfigMapObject := mkConfigMapObject {
  cmoKind : string;
  cmoAPIVersion : string;
  cmoName : string;
  cmoData : gmap string string
}.

(* clientset.CoreV1().ConfigMaps(ns).Create(cm): the one write of the typed
   client, over the same backing store. *)
Record ConfigMapWriter (S : Type) := mkConfigMapWriter {
  cmCreate : string -> ConfigMapObject -> S -> (ConfigMapObject + error) * S
}.

Arguments cmCreate {S} _ _ _ _.

Section Registration.

Context {S : Type} (K : Cluster S) (W : ConfigMapWriter S).

(* The write runs on the store; the trace has no event for it and keeps
   the log lines only. *)
Definition ConfigMaps_Create (ns : string) (cm : ConfigMapObject)
  : M S (option ConfigMapObject * option error) :=
  fun w =>
    let '(r, s') := cmCreate W ns cm (store w) in
    (Returned (pair_of r), mkWorld s' (dr w) (trace w)).

Definition ClusterRegister (clusterData : gmap string string)
  : M S (bool * option error) :=
  fun w =>
    match GetGenericK8sClient K (store w) with
    | Some err => ret (false, Some err) w
    | None =>
        let configMapData : gmap string string :=
          <["cluster_id" := index clusterData "CID"]>
            (<["cluster_key" := index clusterData "KEY"]>
               (<["is_cluster_confirmed" := "true"]> ∅)) in
        let newConfigMap :=
          mkConfigMapObject "ConfigMap" "v1" PortalConfigName configMapData in
        (let* (_, err) := ConfigMaps_Create (AgentNamespace K) newConfigMap in
         if bool_decide (err <> None) then ret (false, err)
         else
           let* _ := log "Configmap created" in
           ret (true, None)) w
    end.

End Registration.

(** ** More vocabulary *)

(* The store requests of the dynamic client in a trace. *)
Definition is_store_request (ev : Event) : bool :=
  match ev with
  | EvCreate _ _ | EvGet _ _ | EvUpdate _ _ | EvDelete _ _ | EvList _ _ => true
  | _ => false
  end.

Definition store_requests (t : list Event) : nat :=
  List.length (List.filter is_store_request t).

(* An event a call bound to [h] may leave: a request on [h] or a log
   line. *)
Definition on_handle (h : ResourceInterface) (ev : Event) : Prop :=
  match ev with
  | EvCreate h' _ | EvGet h' _ | EvUpdate h' _ | EvDelete h' _ | EvList h' _ =>
      h' = h
  | EvLog _ => True
  | EvDiscovery _ | EvConfigMapGet _ _ => False
  end.

(* Two objects that differ in the resource version at most. *)
Definition same_but_version (a b : Unstructured) : Prop :=
  uKind a = uKind b /\ uAPIVersion a = uAPIVersion b /\ uName a = uName b
  /\ uLabels a = uLabels b /\ uRest a = uRest b.

(* A call that, started with dr bound to [h], extends the trace by at
   most [n] store requests, all of them on [h], and leaves dr bound
   to [h]. *)
Definition bounded {S A} (h : ResourceInterface) (n : nat) (m : M S A) : Prop :=
  forall w, dr w = Some h ->
    exists evs,
      trace (snd (m w)) = (trace w ++ evs)%list
      /\ Forall (on_handle h) evs
      /\ store_requests evs <= n
      /\ dr (snd (m w)) = Some h.

Section ErrorVocabulary.

Context {S : Type} (K : Cluster S).


End ErrorVocabulary.

Section RegistrationVocabulary.

Context {S : Type} (K : Cluster S) (W : ConfigMapWriter S).

(* A store that hands back the record it has just been given: after a
   create that succeeded, the client can be built and a get of the same
   name in the same namespace returns the data written. *)
Definition keeps_record : Prop :=
  forall ns cm s created s1,
    cmCreate W ns cm s = (inl created, s1) ->
    GetGenericK8sClient K s1 = None
    /\ exists s2, cmGet K ns (cmoName cm) s1 = (inl (mkConfigMap (cmoData cm)), s2).

(* A store that, once it holds a record, refuses for good to create it
   again: a create that succeeded marks the name as taken in its
   namespace, and while a name is taken the client can be built and every
   create of that name is answered "already exists" and leaves the name
   taken. *)
Definition refuses_for_good : Prop :=
  exists taken : string -> string -> S -> Prop,
    (forall ns cm s created s1,
        cmCreate W ns cm s = (inl created, s1) -> taken ns (cmoName cm) s1)
    /\ (forall ns cm s,
        taken ns (cmoName cm) s ->
        GetGenericK8sClient K s = None
        /\ exists e s1, cmCreate W ns cm s = (inr e, s1)
                        /\ IsAlreadyExists (Some e) = true
                        /\ taken ns (cmoName cm) s1).

(* A run of registrations, one after the other, with the outcome of
   each. *)
Fixpoint registrations (datas : list (gmap string string)) (w : World S)
  : list (Outcome (bool * option error)) * World S :=
  match datas with
  | [] => ([], w)
  | clusterData :: more =>
      let (outcome, w1) := ClusterRegister K W clusterData w in
      let (outcomes, w2) := registrations more w1 in
      (outcome :: outcomes, w2)
  end.

End RegistrationVocabulary.

(** ** The registration record in memory *)

Module MemRegistry.

Import MemCluster.

Definition createRecord (ns : string) (cm : ConfigMapObject) (s : MemStore)
  : (ConfigMapObject + error) * MemStore :=
  if negb (reachable s) then (inr unreachable, s)
  else if String.eqb ns "locked" then (inr forbidden, s)
  else match portalConfig s with
       | Some _ => (inr (alreadyExists (cmoName cm)), s)
       | None =>
           (inl cm, mkMemStore (objects s) (Some (mkConfigMap (cmoData cm)))
                               (reachable s))
       end.

Definition writer : ConfigMapWriter MemStore := mkConfigMapWriter MemStore createRecord.

(* What the parent system hands over at registration. *)
Definition handshake : gmap string string :=
  {[ "KEY" := "abc"; "CID" := "123" ]}.

(* A store with a record that is present but not confirmed. *)
Definition pending : MemStore :=
  mkMemStore [] (Some (mkConfigMap {[ "is_cluster_confirmed" := "false";
                                      "cluster_key" := "abc" ]})) true.

(* A confirmed record without a key. *)
Definition keyless : MemStore :=
  mkMemStore [] (Some (mkConfigMap {[ "is_cluster_confirmed" := "true" ]})) true.

(* A store that holds two workflows with the label wf-1. *)
Definition twoRuns : MemStore :=
  mkMemStore
    [(mkHandle workflows "ns1",
      mkUnstructured "Workflow" "argoproj.io/v1alpha1" "run-x7k2"
                     {["workflow_id" := "wf-1"]} "4" []);
     (mkHandle workflows "ns1",
      mkUnstructured "Workflow" "argoproj.io/v1alpha1" "run-b9d1"
                     {["workflow_id" := "wf-1"]} "2" [])]
    None true.



(* A cluster whose documents include a workflow without labels and the
   workflow wf1 under another name. *)
Definition bare : Unstructured :=
  mkUnstructured "Workflow" "argoproj.io/v1alpha1" "bare" ∅ "" [].

Definition decodeMore (doc : string) : (Unstructured * GroupVersionKind) + error :=
  if String.eqb doc "bare.json" then inl (bare, wfKind)
  else if String.eqb doc "wf1-renamed.json" then
    inl (SetName "another" wf1, wfKind)
  else if String.eqb doc "gadget.json" then
    inl (mkUnstructured "Gadget" "v1" "g" ∅ "" [], mkGVK "" "v1" "Gadget")
  else decode doc.

Definition toYAML (doc : string) : string + error :=
  if String.eqb doc "broken.json" then inr (errorString "invalid character")
  else inl doc.

Definition richCluster : Cluster MemStore :=
  mkCluster MemStore "litmus" clients clients toYAML decodeMore types
            configMapGet create get update delete list_.

(* A process whose dr is bound to the config maps of the refused
   namespace. *)
Definition refused : World MemStore :=
  mkWorld withCfg1 (Some (mkHandle configmaps "locked")) [].

(* A cluster that lets everything be read and nothing be updated. *)
Definition readOnlyCluster : Cluster MemStore :=
  mkCluster MemStore "litmus" clients clients toYAML decodeMore types
            configMapGet create get (fun _ _ s => (inr forbidden, s)) delete list_.

End MemRegistry.

(** * Properties *)

(** ** Reading the results of client calls *)

Lemma err_not_nil (e : error) : bool_decide (Some e <> None) = true.
Proof. apply bool_decide_eq_true. discriminate. Qed.

Lemma err_nil : bool_decide (@None error <> None) = false.
Proof. apply bool_decide_eq_false. intros H. apply H. reflexivity. Qed.

Lemma IsNotFound_not_AlreadyExists (err : option error) :
  IsNotFound err = true -> IsAlreadyExists err = false.
Proof. destruct err as [[[] ?|?]|]; simpl; congruence. Qed.

Arguments IsNotFound : simpl never.
Arguments IsAlreadyExists : simpl never.

(* Run the monadic code of a call down to the requests it makes. *)
Ltac run :=
  unfold applyRequest, IsClusterConfirmed, ConfigMaps_Get, Items0,
    dr_Create, dr_Get, dr_Update, dr_Delete, dr_List, mapper_RESTMapping,
    bind, ret, panic, request, get_dr, set_dr, log;
  simpl.

Lemma IsNotFound_nil : IsNotFound None = false.
Proof. reflexivity. Qed.

Lemma IsAlreadyExists_nil : IsAlreadyExists None = false.
Proof. reflexivity. Qed.

Ltac tidy :=
  simpl;
  rewrite ?IsNotFound_nil, ?IsAlreadyExists_nil, ?err_not_nil, ?err_nil;
  simpl.

Ltac step H := rewrite H; tidy.

(* Name the parts of the process state, so that the code computes. *)
Ltac open_world w Hdr :=
  let s0 := fresh "s0" in
  let d := fresh "d" in
  let t := fresh "t" in
  destruct w as [s0 d t]; simpl in *; subst d.

Section ApplyRequest.

Context {S : Type} (K : Cluster S).

(** C10.  A request type other than create, update, get and delete makes
    [applyRequest] return a nil object and the error built from the text
    Invalid Request; the process is left exactly as it was (no request
    reaches the backing store, and [dr] is not even read). *)
Theorem applyRequest_invalid_request (requestType : string)
    (obj : Unstructured) (w : World S) :
  requestType <> "create" -> requestType <> "update" ->
  requestType <> "get" -> requestType <> "delete" ->
  applyRequest K requestType obj w
  = (Returned (obj, (None, Some invalidRequest)), w).
Proof.
  intros Hc Hu Hg Hd. unfold applyRequest.
  apply String.eqb_neq in Hc, Hu, Hg, Hd.
  rewrite Hc, Hu, Hg, Hd. reflexivity.
Qed.

Lemma applyRequest_create_exists (obj : Unstructured) (w : World S)
    (h : ResourceInterface) (e : error) (s1 : S) :
  dr w = Some h ->
  apiCreate K h obj (store w) = (inr e, s1) ->
  IsAlreadyExists (Some e) = true ->
  applyRequest K "create" obj w
  = (Returned (obj, (None, None)),
     mkWorld s1 (Some h) (trace w ++ [EvCreate h obj] ++ [EvLog "Already exists"])).
Proof.
  intros Hdr Hc He. open_world w Hdr. run. step Hc. step He.
  rewrite <- app_assoc. reflexivity.
Qed.

Lemma applyRequest_create_created (obj : Unstructured) (w : World S)
    (h : ResourceInterface) (created : Unstructured) (s1 : S) :
  dr w = Some h ->
  apiCreate K h obj (store w) = (inl created, s1) ->
  applyRequest K "create" obj w
  = (Returned (obj, (Some created, None)),
     mkWorld s1 (Some h)
             (trace w ++ [EvCreate h obj] ++ [EvLog "Resource successfully created"])).
Proof.
  intros Hdr Hc. open_world w Hdr. run. step Hc. tidy.
  rewrite <- app_assoc. reflexivity.
Qed.

(* A create that fails for any reason other than "already exists" hands
   the store's error back. *)
Lemma applyRequest_create_error (obj : Unstructured) (w : World S)
    (h : ResourceInterface) (e : error) (s1 : S) :
  dr w = Some h ->
  apiCreate K h obj (store w) = (inr e, s1) ->
  IsAlreadyExists (Some e) = false ->
  applyRequest K "create" obj w
  = (Returned (obj, (None, Some e)),
     mkWorld s1 (Some h) (trace w ++ [EvCreate h obj])).
Proof.
  intros Hdr Hc He. open_world w Hdr. run. step Hc. step He. reflexivity.
Qed.

(** C3.  With request type create, when the backing store answers
    "already exists" [applyRequest] returns the benign result (nil object,
    nil error) and only logs; and so, on a store that reports an object it
    has just created as existing, a create that stored the object followed
    by the same create again gives the benign result, not an error. *)
Theorem applyRequest_create_idempotent (obj : Unstructured) (w : World S)
    (h : ResourceInterface) :
  dr w = Some h ->
  (forall e s1,
      apiCreate K h obj (store w) = (inr e, s1) ->
      IsAlreadyExists (Some e) = true ->
      applyRequest K "create" obj w
      = (Returned (obj, (None, None)),
         mkWorld s1 (Some h)
                 (trace w ++ [EvCreate h obj] ++ [EvLog "Already exists"])))
  /\ (reports_existing K ->
      forall created w1,
        applyRequest K "create" obj w = (Returned (obj, (Some created, None)), w1) ->
        exists w2,
          applyRequest K "create" obj w1 = (Returned (obj, (None, None)), w2)
          /\ trace w2 = (trace w1 ++ [EvCreate h obj] ++ [EvLog "Already exists"])%list).
Proof.
  intros Hdr. split.
  - intros e s1 Hc He. exact (applyRequest_create_exists obj w h e s1 Hdr Hc He).
  - intros Hlaw created w1 Hfirst.
    destruct (apiCreate K h obj (store w)) as [[o|e] s1] eqn:Hc.
    + rewrite (applyRequest_create_created _ _ _ _ _ Hdr Hc) in Hfirst.
      injection Hfirst as Ho Hw. subst w1.
      destruct (Hlaw _ _ _ _ _ Hc) as (e & s2 & Hc2 & He).
      eexists. split.
      * apply (applyRequest_create_exists obj _ h e s2); simpl; auto.
      * reflexivity.
    + destruct (IsAlreadyExists (Some e)) eqn:He.
      * rewrite (applyRequest_create_exists _ _ _ _ _ Hdr Hc He) in Hfirst.
        discriminate.
      * rewrite (applyRequest_create_error _ _ _ _ _ Hdr Hc He) in Hfirst.
        discriminate.
Qed.

End ApplyRequest.

Section UpdateGetDelete.

Context {S : Type} (K : Cluster S).

Lemma applyRequest_update_not_found (obj : Unstructured) (w : World S)
    (h : ResourceInterface) (e : error) (s1 : S) :
  dr w = Some h ->
  apiGet K h (GetName obj) (store w) = (inr e, s1) ->
  IsNotFound (Some e) = true ->
  applyRequest K "update" obj w
  = (Returned (obj, (None, None)),
     mkWorld s1 (Some h)
             (trace w ++ [EvGet h (GetName obj)]
                     ++ [EvLog (GetName obj ++ " not found")])).
Proof.
  intros Hdr Hg He. open_world w Hdr. run. step Hg. step He.
  rewrite <- app_assoc. reflexivity.
Qed.

Lemma applyRequest_update_get_error (obj : Unstructured) (w : World S)
    (h : ResourceInterface) (e : error) (s1 : S) :
  dr w = Some h ->
  apiGet K h (GetName obj) (store w) = (inr e, s1) ->
  IsNotFound (Some e) = false ->
  applyRequest K "update" obj w
  = (Returned (obj, (None, Some e)),
     mkWorld s1 (Some h) (trace w ++ [EvGet h (GetName obj)])).
Proof.
  intros Hdr Hg He. open_world w Hdr. run. step Hg. step He. reflexivity.
Qed.

Lemma applyRequest_update_submitted (obj : Unstructured) (w : World S)
    (h : ResourceInterface) (live : Unstructured) (s1 : S)
    (r : Unstructured + error) (s2 : S) :
  dr w = Some h ->
  apiGet K h (GetName obj) (store w) = (inl live, s1) ->
  apiUpdate K h (SetResourceVersion (GetResourceVersion live) obj) s1 = (r, s2) ->
  applyRequest K "update" obj w
  = (Returned (SetResourceVersion (GetResourceVersion live) obj,
               match r with
               | inl updated => (Some updated, None)
               | inr e => (None, Some e)
               end),
     mkWorld s2 (Some h)
             (trace w ++ [EvGet h (GetName obj)]
                     ++ [EvUpdate h (SetResourceVersion (GetResourceVersion live) obj)]
                     ++ match r with
                        | inl _ => [EvLog "Resource successfully updated"]
                        | inr _ => []
                        end)).
Proof.
  intros Hdr Hg Hu. open_world w Hdr. run. step Hg.
  tidy.
  step Hu. destruct r as [updated|e]; simpl;
    rewrite ?err_not_nil, ?err_nil; simpl; rewrite <- !app_assoc; reflexivity.
Qed.

(** C4.  With request type update, [applyRequest] first gets the live
    object by the name of the submitted one.  When that get answers
    "not found" the result is the benign one (nil, nil) and no update is
    submitted: the get and a log line are all that happens.  When the get
    returns the live object, its resource version is copied onto the
    submitted object and the object so stamped is what the update
    submits, right after the get.  (A get that fails otherwise has no
    live object to copy from: its error is returned and no update is
    submitted.) *)
Theorem applyRequest_update_stamps_version (obj : Unstructured) (w : World S)
    (h : ResourceInterface) :
  dr w = Some h ->
  (forall e s1,
      apiGet K h (GetName obj) (store w) = (inr e, s1) ->
      IsNotFound (Some e) = true ->
      applyRequest K "update" obj w
      = (Returned (obj, (None, None)),
         mkWorld s1 (Some h)
                 (trace w ++ [EvGet h (GetName obj)]
                         ++ [EvLog (GetName obj ++ " not found")])))
  /\ (forall live s1 r s2,
      apiGet K h (GetName obj) (store w) = (inl live, s1) ->
      apiUpdate K h (SetResourceVersion (GetResourceVersion live) obj) s1
      = (r, s2) ->
      exists out logs,
        applyRequest K "update" obj w
        = (Returned (SetResourceVersion (GetResourceVersion live) obj, out),
           mkWorld s2 (Some h)
                   (trace w ++ [EvGet h (GetName obj)]
                           ++ [EvUpdate h (SetResourceVersion
                                             (GetResourceVersion live) obj)]
                           ++ logs))
        /\ out = pair_of r
        /\ Forall (fun ev => exists line, ev = EvLog line) logs)
  /\ (forall e s1,
      apiGet K h (GetName obj) (store w) = (inr e, s1) ->
      IsNotFound (Some e) = false ->
      applyRequest K "update" obj w
      = (Returned (obj, (None, Some e)),
         mkWorld s1 (Some h) (trace w ++ [EvGet h (GetName obj)]))).
Proof.
  intros Hdr. split; [|split].
  - intros e s1 Hg He.
    exact (applyRequest_update_not_found obj w h e s1 Hdr Hg He).
  - intros live s1 r s2 Hg Hu.
    pose proof (applyRequest_update_submitted obj w h live s1 r s2 Hdr Hg Hu)
      as Hrun.
    do 2 eexists. split; [exact Hrun|].
    split; destruct r; simpl; auto.
    constructor; [eexists; reflexivity | constructor].
  - intros e s1 Hg He.
    exact (applyRequest_update_get_error obj w h e s1 Hdr Hg He).
Qed.

Lemma applyRequest_get_not_found (obj : Unstructured) (w : World S)
    (h : ResourceInterface) (e : error) (s1 : S) :
  dr w = Some h ->
  apiGet K h (GetName obj) (store w) = (inr e, s1) ->
  IsNotFound (Some e) = true ->
  applyRequest K "get" obj w
  = (Returned (obj, (None, None)),
     mkWorld s1 (Some h)
             (trace w ++ [EvGet h (GetName obj)]
                     ++ [EvLog (GetName obj ++ " not found")])).
Proof.
  intros Hdr Hg He. open_world w Hdr. run. step Hg. step He.
  rewrite <- app_assoc. reflexivity.
Qed.

Lemma applyRequest_get_found (obj : Unstructured) (w : World S)
    (h : ResourceInterface) (live : Unstructured) (s1 : S) :
  dr w = Some h ->
  apiGet K h (GetName obj) (store w) = (inl live, s1) ->
  applyRequest K "get" obj w
  = (Returned (obj, (Some live, None)),
     mkWorld s1 (Some h)
             (trace w ++ [EvGet h (GetName obj)]
                     ++ [EvLog "Resource successfully retrieved"])).
Proof.
  intros Hdr Hg. open_world w Hdr. run. step Hg.
  tidy.
  rewrite <- app_assoc. reflexivity.
Qed.

Lemma applyRequest_get_error (obj : Unstructured) (w : World S)
    (h : ResourceInterface) (e : error) (s1 : S) :
  dr w = Some h ->
  apiGet K h (GetName obj) (store w) = (inr e, s1) ->
  IsNotFound (Some e) = false ->
  applyRequest K "get" obj w
  = (Returned (obj, (None, Some e)),
     mkWorld s1 (Some h) (trace w ++ [EvGet h (GetName obj)])).
Proof.
  intros Hdr Hg He. open_world w Hdr. run. step Hg. step He. reflexivity.
Qed.

Lemma applyRequest_delete_not_found (obj : Unstructured) (w : World S)
    (h : ResourceInterface) (e : error) (s1 : S) :
  dr w = Some h ->
  apiDelete K h (GetName obj) (store w) = (Some e, s1) ->
  IsNotFound (Some e) = true ->
  applyRequest K "delete" obj w
  = (Returned (obj, (None, None)),
     mkWorld s1 (Some h)
             (trace w ++ [EvDelete h (GetName obj)]
                     ++ [EvLog (GetName obj ++ " not found")])).
Proof.
  intros Hdr Hd He. open_world w Hdr. run. step Hd. step He.
  rewrite <- app_assoc. reflexivity.
Qed.

Lemma applyRequest_delete_deleted (obj : Unstructured) (w : World S)
    (h : ResourceInterface) (s1 : S) :
  dr w = Some h ->
  apiDelete K h (GetName obj) (store w) = (None, s1) ->
  applyRequest K "delete" obj w
  = (Returned (obj, (Some emptyUnstructured, None)),
     mkWorld s1 (Some h)
             (trace w ++ [EvDelete h (GetName obj)]
                     ++ [EvLog "Resource successfully deleted"])).
Proof.
  intros Hdr Hd. open_world w Hdr. run. step Hd.
  tidy.
  rewrite <- app_assoc. reflexivity.
Qed.

Lemma applyRequest_delete_error (obj : Unstructured) (w : World S)
    (h : ResourceInterface) (e : error) (s1 : S) :
  dr w = Some h ->
  apiDelete K h (GetName obj) (store w) = (Some e, s1) ->
  IsNotFound (Some e) = false ->
  applyRequest K "delete" obj w
  = (Returned (obj, (None, Some e)),
     mkWorld s1 (Some h) (trace w ++ [EvDelete h (GetName obj)])).
Proof.
  intros Hdr Hd He. open_world w Hdr. run. step Hd. step He. reflexivity.
Qed.

(** C5.  With request type get or delete, a target the backing store
    reports as "not found" gives the benign result: a nil object with a nil
    error.  A delete that succeeds returns the empty placeholder object. *)
Theorem applyRequest_get_delete_absent (obj : Unstructured) (w : World S)
    (h : ResourceInterface) :
  dr w = Some h ->
  (forall e s1,
      apiGet K h (GetName obj) (store w) = (inr e, s1) ->
      IsNotFound (Some e) = true ->
      exists w1, applyRequest K "get" obj w = (Returned (obj, (None, None)), w1))
  /\ (forall e s1,
      apiDelete K h (GetName obj) (store w) = (Some e, s1) ->
      IsNotFound (Some e) = true ->
      exists w1, applyRequest K "delete" obj w = (Returned (obj, (None, None)), w1))
  /\ (forall s1,
      apiDelete K h (GetName obj) (store w) = (None, s1) ->
      exists w1,
        applyRequest K "delete" obj w
        = (Returned (obj, (Some emptyUnstructured, None)), w1)).
Proof.
  intros Hdr. repeat split.
  - intros e s1 Hg He. eexists.
    exact (applyRequest_get_not_found obj w h e s1 Hdr Hg He).
  - intros e s1 Hd He. eexists.
    exact (applyRequest_delete_not_found obj w h e s1 Hdr Hd He).
  - intros s1 Hd. eexists.
    exact (applyRequest_delete_deleted obj w h s1 Hdr Hd).
Qed.

End UpdateGetDelete.

(** ** What a call leaves behind *)

Lemma discoveries_app (t1 t2 : list Event) :
  discoveries (t1 ++ t2) = discoveries t1 + discoveries t2.
Proof. unfold discoveries. rewrite List.filter_app, length_app. reflexivity. Qed.

Lemma quiet_ret {S A} (a : A) : quiet (@ret S A a).
Proof. intros w. exists []. simpl. rewrite app_nil_r. auto. Qed.

Lemma quiet_panic {S A} (msg : string) : quiet (@panic S A msg).
Proof. intros w. exists []. simpl. rewrite app_nil_r. auto. Qed.

Lemma quiet_bind {S A B} (m : M S A) (k : A -> M S B) :
  quiet m -> (forall a, quiet (k a)) -> quiet (bind m k).
Proof.
  intros Hm Hk w. unfold bind.
  destruct (Hm w) as (evs & Ht & Hd & Hdr).
  destruct (m w) as [[a|msg] w1]; simpl in *.
  - destruct (Hk a w1) as (evs' & Ht' & Hd' & Hdr').
    exists (evs ++ evs')%list. rewrite Ht', Ht, Hdr', Hdr, discoveries_app, Hd, Hd'.
    rewrite app_assoc. auto.
  - exists evs. auto.
Qed.

Lemma quiet_log {S} (line : string) : quiet (@log S line).
Proof. intros w. exists [EvLog line]. simpl. auto. Qed.

Lemma quiet_get_dr {S} : quiet (@get_dr S).
Proof.
  intros [s [h|] t]; exists []; unfold get_dr; simpl;
    rewrite app_nil_r; auto.
Qed.

Lemma quiet_request {S A} (ev : Event) (op : S -> A * S) :
  is_discovery ev = false -> quiet (request ev op).
Proof.
  intros Hev w. exists [ev]. unfold request.
  destruct (op (store w)) as [a s1]. simpl.
  unfold discoveries. simpl. rewrite Hev. auto.
Qed.

Ltac quiet_tac :=
  repeat first
    [ apply quiet_bind; [|intros]
    | apply quiet_request; reflexivity
    | apply quiet_ret | apply quiet_panic | apply quiet_log
    | apply quiet_get_dr
    | match goal with
      | |- quiet (match ?x with _ => _ end) => destruct x
      | |- quiet (let (_, _) := ?x in _) => destruct x
      end ].

Section Frames.

Context {S : Type} (K : Cluster S).

Lemma quiet_dr_List (sel : string) : quiet (dr_List K sel).
Proof. unfold dr_List. quiet_tac. Qed.

Lemma quiet_applyRequest (requestType : string) (obj : Unstructured) :
  quiet (applyRequest K requestType obj).
Proof.
  unfold applyRequest, dr_Create, dr_Get, dr_Update, dr_Delete. quiet_tac.
Qed.

End Frames.

(** ** ClusterOperations *)

Section ClusterOps.

Context {S : Type} (K : Cluster S).

Lemma ClusterOperations_resolved (manifest requestType namespace : string)
    (w : World S) obj gvk mapping :
  resolves K manifest (store w) obj gvk mapping ->
  ClusterOperations K manifest requestType namespace w
  = retargetAndApply K requestType obj
      (mkWorld (store w) (Some (boundHandle mapping namespace))
               (trace w ++ [EvDiscovery gvk])).
Proof.
  intros [(yamlStr & Hy & Hc & Hd) Hm].
  unfold ClusterOperations, retargetAndApply, boundHandle, labelAddressed.
  rewrite Hy, Hc, Hd.
  unfold NewDeferredDiscoveryRESTMapper, NewMemCacheClient, mapper_RESTMapping.
  rewrite lookup_empty.
  unfold bind at 1. unfold bind at 1. unfold request. rewrite Hm.
  unfold ret at 1. cbv beta iota.
  unfold bind at 1.
  destruct (RESTScopeName_eqb (mScope mapping) RESTScopeNameNamespace);
    reflexivity.
Qed.

Lemma ClusterOperations_unknown_type (manifest requestType namespace : string)
    (w : World S) obj gvk err :
  decodes K manifest (store w) obj gvk ->
  catalog K gvk (store w) = inr err ->
  ClusterOperations K manifest requestType namespace w
  = (Returned (None, Some err),
     mkWorld (store w) (dr w) (trace w ++ [EvDiscovery gvk])).
Proof.
  intros (yamlStr & Hy & Hc & Hd) Hm.
  unfold ClusterOperations. rewrite Hy, Hc, Hd.
  unfold NewDeferredDiscoveryRESTMapper, NewMemCacheClient, mapper_RESTMapping.
  rewrite lookup_empty. run. rewrite Hm. reflexivity.
Qed.

Lemma quiet_retargetAndApply (requestType : string) (obj : Unstructured) :
  quiet (retargetAndApply K requestType obj).
Proof.
  unfold retargetAndApply, Items0.
  destruct (labelAddressed obj).
  - apply quiet_bind; [apply quiet_dr_List|]. intros [pods err].
    destruct (bool_decide (err <> None)); [apply quiet_ret|].
    apply quiet_bind.
    + destruct pods as [items|]; [|apply quiet_panic].
      destruct (items !! 0%nat); [apply quiet_ret | apply quiet_panic].
    + intros item. apply quiet_bind; [apply quiet_applyRequest|].
      intros r. apply quiet_ret.
  - apply quiet_bind; [apply quiet_applyRequest|]. intros r. apply quiet_ret.
Qed.

(* One call that gets as far as type resolution asks the catalog once. *)
Lemma ClusterOperations_one_discovery (manifest requestType namespace : string)
    (w : World S) obj gvk :
  decodes K manifest (store w) obj gvk ->
  discoveries (trace (snd (ClusterOperations K manifest requestType namespace w)))
  = 1 + discoveries (trace w).
Proof.
  intros Hdec.
  destruct (catalog K gvk (store w)) as [mapping|err] eqn:Hm.
  - rewrite (ClusterOperations_resolved _ _ _ _ obj gvk mapping (conj Hdec Hm)).
    destruct (quiet_retargetAndApply requestType obj
                (mkWorld (store w) (Some (boundHandle mapping namespace))
                         (trace w ++ [EvDiscovery gvk])))
      as (evs & Ht & Hd & _).
    rewrite Ht. simpl. rewrite !discoveries_app, Hd.
    unfold discoveries at 2. simpl. lia.
  - rewrite (ClusterOperations_unknown_type _ _ _ _ obj gvk err Hdec Hm).
    simpl. rewrite discoveries_app. unfold discoveries at 2. simpl. lia.
Qed.

Lemma bind_returned {A B} (m : M S A) (k : A -> M S B) (w w1 : World S) (a : A) :
  m w = (Returned a, w1) -> bind m k w = k a w1.
Proof. intros H. unfold bind. rewrite H. reflexivity. Qed.

Lemma dr_List_run (sel : string) (w : World S) (h : ResourceInterface) :
  dr w = Some h ->
  dr_List K sel w
  = (Returned (pair_of (fst (apiList K h sel (store w)))),
     mkWorld (snd (apiList K h sel (store w))) (Some h)
             (trace w ++ [EvList h sel])).
Proof.
  intros Hdr. destruct w as [s0 d t]. simpl in *. subst d.
  unfold dr_List, get_dr, request, bind, ret. simpl.
  destruct (apiList K h sel s0). reflexivity.
Qed.

(* For a label-addressed kind the list request comes first. *)
Lemma retargetAndApply_lists_first (requestType : string) (obj : Unstructured)
    (w : World S) (h : ResourceInterface) :
  labelAddressed obj = true ->
  dr w = Some h ->
  exists rest,
    trace (snd (retargetAndApply K requestType obj w))
    = (trace w ++ [EvList h (index (GetLabels obj) "workflow_id")] ++ rest)%list.
Proof.
  intros Hkind Hdr. unfold retargetAndApply. rewrite Hkind.
  rewrite (bind_returned _ _ _ _ _ (dr_List_run _ w h Hdr)).
  match goal with
  | |- context [trace (snd (?k ?w0))] =>
      assert (Hq : quiet k); [|destruct (Hq w0) as (rest & Ht & _ & _)]
  end.
  - destruct (pair_of _) as [pods err].
    destruct (bool_decide (err <> None)); [apply quiet_ret|].
    apply quiet_bind.
    + unfold Items0. destruct pods as [items|]; [|apply quiet_panic].
      destruct (items !! 0%nat); [apply quiet_ret | apply quiet_panic].
    + intros item. apply quiet_bind; [apply quiet_applyRequest|].
      intros r. apply quiet_ret.
  - exists rest. rewrite Ht. simpl. rewrite <- app_assoc. reflexivity.
Qed.





End ClusterOps.

Section ClusterOpsProperties.

Context {S : Type} (K : Cluster S).

(** C1 (what the code does).  For a manifest of a label-addressed kind
    whose list request returns no item and no error, [ClusterOperations]
    does not return at all: indexing the first item of the empty list
    panics.  The list is the last request made, so [applyRequest] is not
    reached; but no error value is handed to the caller. *)
Theorem ClusterOperations_no_match_panics (manifest requestType namespace : string)
    (w : World S) obj gvk mapping s1 :
  resolves K manifest (store w) obj gvk mapping ->
  labelAddressed obj = true ->
  apiList K (boundHandle mapping namespace)
          (index (GetLabels obj) "workflow_id") (store w) = (inl [], s1) ->
  ClusterOperations K manifest requestType namespace w
  = (Panicked "index out of range [0] with length 0",
     mkWorld s1 (Some (boundHandle mapping namespace))
             (trace w ++ [EvDiscovery gvk]
                     ++ [EvList (boundHandle mapping namespace)
                                (index (GetLabels obj) "workflow_id")])).
Proof.
  intros Hres Hkind Hlist.
  rewrite (ClusterOperations_resolved K _ _ _ _ obj gvk mapping Hres).
  unfold retargetAndApply. rewrite Hkind. run. step Hlist.
  rewrite <- app_assoc. reflexivity.
Qed.

(** C2 (what the code does).  For a manifest of a label-addressed kind,
    an error from the list request is dropped: [ClusterOperations] returns
    a nil object with a nil error, whatever the error was. *)
Theorem ClusterOperations_list_error_dropped (manifest requestType namespace : string)
    (w : World S) obj gvk mapping e s1 :
  resolves K manifest (store w) obj gvk mapping ->
  labelAddressed obj = true ->
  apiList K (boundHandle mapping namespace)
          (index (GetLabels obj) "workflow_id") (store w) = (inr e, s1) ->
  ClusterOperations K manifest requestType namespace w
  = (Returned (None, None),
     mkWorld s1 (Some (boundHandle mapping namespace))
             (trace w ++ [EvDiscovery gvk]
                     ++ [EvList (boundHandle mapping namespace)
                                (index (GetLabels obj) "workflow_id")])).
Proof.
  intros Hres Hkind Hlist.
  rewrite (ClusterOperations_resolved K _ _ _ _ obj gvk mapping Hres).
  unfold retargetAndApply. rewrite Hkind. run. step Hlist.
  rewrite <- app_assoc. reflexivity.
Qed.


(** C8 (amended).  The discovery cache lives for one call only: every
    [ClusterOperations] call builds a new, empty cache, so each call that
    gets as far as type resolution issues exactly one discovery query, and
    two calls resolving the same kind+version issue two. *)
Theorem ClusterOperations_discovery_per_call
    (manifest requestType1 namespace1 requestType2 namespace2 : string)
    (w : World S) obj gvk :
  let w1 := snd (ClusterOperations K manifest requestType1 namespace1 w) in
  let w2 := snd (ClusterOperations K manifest requestType2 namespace2 w1) in
  decodes K manifest (store w) obj gvk ->
  decodes K manifest (store w1) obj gvk ->
  discoveries (trace w1) = 1 + discoveries (trace w)
  /\ discoveries (trace w2) = 2 + discoveries (trace w).
Proof.
  intros w1 w2 H0 H1.
  pose proof (ClusterOperations_one_discovery K manifest requestType1
                namespace1 w obj gvk H0) as E1.
  pose proof (ClusterOperations_one_discovery K manifest requestType2
                namespace2 w1 obj gvk H1) as E2.
  fold w1 in E1. fold w2 in E2. split; lia.
Qed.

(** C9.  For a descriptor whose scope is cluster-wide the namespace
    argument plays no part: two [ClusterOperations] calls that differ in
    the namespace string only bind the same handle, return the same result
    and leave the same process state. *)
Theorem ClusterOperations_cluster_wide_ignores_namespace
    (manifest requestType namespace1 namespace2 : string) (w : World S)
    obj gvk mapping :
  resolves K manifest (store w) obj gvk mapping ->
  mScope mapping = RESTScopeNameRoot ->
  ClusterOperations K manifest requestType namespace1 w
  = ClusterOperations K manifest requestType namespace2 w
  /\ dr (snd (ClusterOperations K manifest requestType namespace1 w))
     = Some (Resource (mResource mapping)).
Proof.
  intros Hres Hscope.
  rewrite !(ClusterOperations_resolved K _ _ _ _ obj gvk mapping Hres).
  unfold boundHandle. rewrite Hscope. simpl. split; [reflexivity|].
  destruct (quiet_retargetAndApply K requestType obj
              (mkWorld (store w) (Some (Resource (mResource mapping)))
                       (trace w ++ [EvDiscovery gvk])))
    as (evs & _ & _ & Hdr).
  exact Hdr.
Qed.

(** C7.  [IsClusterConfirmed] returns (true, cluster_key, nil) when the
    record is read and its is_cluster_confirmed entry is the text true;
    (false, empty, nil) when the record is absent; and (false, empty, err)
    with the error itself for any other error, whether it comes from the
    read or from building the client. *)
Theorem IsClusterConfirmed_cases (w : World S) :
  (forall cm s1,
      GetGenericK8sClient K (store w) = None ->
      cmGet K (AgentNamespace K) PortalConfigName (store w) = (inl cm, s1) ->
      cmData cm !! "is_cluster_confirmed" = Some "true" ->
      fst (IsClusterConfirmed K w)
      = Returned (true, index (cmData cm) "cluster_key", None))
  /\ (forall e s1,
      GetGenericK8sClient K (store w) = None ->
      cmGet K (AgentNamespace K) PortalConfigName (store w) = (inr e, s1) ->
      IsNotFound (Some e) = true ->
      fst (IsClusterConfirmed K w) = Returned (false, "", None))
  /\ (forall e s1,
      GetGenericK8sClient K (store w) = None ->
      cmGet K (AgentNamespace K) PortalConfigName (store w) = (inr e, s1) ->
      IsNotFound (Some e) = false ->
      fst (IsClusterConfirmed K w) = Returned (false, "", Some e))
  /\ (forall e,
      GetGenericK8sClient K (store w) = Some e ->
      IsClusterConfirmed K w = (Returned (false, "", Some e), w)).
Proof.
  repeat split.
  - intros cm s1 Hc Hg Hflag. run. rewrite Hc. run. step Hg.
    unfold index. rewrite Hflag. reflexivity.
  - intros e s1 Hc Hg He. run. rewrite Hc. run. step Hg. step He. reflexivity.
  - intros e s1 Hc Hg He. run. rewrite Hc. run. step Hg. step He.
    unfold index. rewrite lookup_empty. reflexivity.
  - intros e Hc. run. rewrite Hc. reflexivity.
Qed.

End ClusterOpsProperties.

(** ** The cluster in memory behaves *)

Section MemClusterFacts.

Import MemCluster.

Lemma find_app_none {A} (f : A -> bool) (l1 l2 : list A) :
  List.find f l1 = None -> List.find f (l1 ++ l2) = List.find f l2.
Proof.
  induction l1 as [|a l1 IH]; simpl; [reflexivity|].
  destruct (f a); [discriminate | exact IH].
Qed.

Lemma handle_eqb_refl (h : ResourceInterface) : handle_eqb h h = true.
Proof.
  unfold handle_eqb, gvr_eqb. rewrite !String.eqb_refl. reflexivity.
Qed.

Lemma cluster_reports_existing : reports_existing cluster.
Proof.
  intros h obj s created s1. unfold cluster, clusterIn. cbn [apiCreate].
  unfold create.
  destruct (locked h) eqn:Hl; [discriminate|].
  unfold lookup_obj.
  destruct (List.find (is_entry h (uName obj)) (objects s)) eqn:Hf;
    [discriminate|].
  cbn [fmap option_fmap option_map]. intros Heq. injection Heq as _ Hs1. subst s1.
  exists (alreadyExists (uName obj)). eexists.
  cbn [objects with_objects].
  rewrite (find_app_none _ _ _ Hf). cbn [List.find].
  unfold is_entry. cbn [fst snd SetResourceVersion uName].
  rewrite handle_eqb_refl, String.eqb_refl.
  cbn [andb fmap option_fmap option_map snd].
  split; reflexivity.
Qed.

End MemClusterFacts.

(** ** The properties at concrete inputs *)

Section Examples.

Import MemCluster.

Lemma resolves_cfg1 (s : MemStore) :
  reachable s = true ->
  resolves cluster "cfg1.json" s cfg1 cfgKind
           (mkRESTMapping configmaps RESTScopeNameNamespace).
Proof.
  intros Hr. split; [exists "cfg1.json"|reflexivity].
  simpl. unfold clients. rewrite Hr. auto.
Qed.

Lemma resolves_wf1 (s : MemStore) :
  reachable s = true ->
  resolves cluster "wf1.json" s wf1 wfKind
           (mkRESTMapping workflows RESTScopeNameNamespace).
Proof.
  intros Hr. split; [exists "wf1.json"|reflexivity].
  simpl. unfold clients. rewrite Hr. auto.
Qed.

Lemma resolves_ns1 (s : MemStore) :
  reachable s = true ->
  resolves cluster "ns1.json" s ns1 nsKind
           (mkRESTMapping namespaces RESTScopeNameRoot).
Proof.
  intros Hr. split; [exists "ns1.json"|reflexivity].
  simpl. unfold clients. rewrite Hr. auto.
Qed.

Lemma ClusterOperations_no_match_panics_witness :
  ClusterOperations cluster "wf1.json" "get" "ns1" (start emptyStore)
  = (Panicked "index out of range [0] with length 0",
     mkWorld emptyStore (Some (mkHandle workflows "ns1"))
             [EvDiscovery wfKind; EvList (mkHandle workflows "ns1") "wf-1"]).
Proof.
  apply (ClusterOperations_no_match_panics cluster "wf1.json" "get" "ns1"
           (start emptyStore) wf1 wfKind
           (mkRESTMapping workflows RESTScopeNameNamespace) emptyStore).
  - apply resolves_wf1. reflexivity.
  - reflexivity.
  - reflexivity.
Defined.

Lemma ClusterOperations_list_error_dropped_witness :
  ClusterOperations cluster "wf1.json" "get" "locked" (start emptyStore)
  = (Returned (None, None),
     mkWorld emptyStore (Some (mkHandle workflows "locked"))
             [EvDiscovery wfKind; EvList (mkHandle workflows "locked") "wf-1"]).
Proof.
  apply (ClusterOperations_list_error_dropped cluster "wf1.json" "get" "locked"
           (start emptyStore) wf1 wfKind
           (mkRESTMapping workflows RESTScopeNameNamespace) forbidden emptyStore).
  - apply resolves_wf1. reflexivity.
  - reflexivity.
  - reflexivity.
Defined.

Lemma applyRequest_invalid_request_witness :
  applyRequest cluster "patch" cfg1 (start emptyStore)
  = (Returned (cfg1, (None, Some invalidRequest)), start emptyStore).
Proof.
  apply (applyRequest_invalid_request cluster "patch" cfg1 (start emptyStore));
    intros H; discriminate H.
Defined.

Lemma applyRequest_create_idempotent_witness :
  applyRequest cluster "create" cfg1 (bound withCfg1)
  = (Returned (cfg1, (None, None)),
     mkWorld withCfg1 (Some (mkHandle configmaps "ns1"))
             [EvCreate (mkHandle configmaps "ns1") cfg1; EvLog "Already exists"])
  /\ exists w2,
      applyRequest cluster "create" cfg1
        (snd (applyRequest cluster "create" cfg1 (bound emptyStore)))
      = (Returned (cfg1, (None, None)), w2)
      /\ trace w2
         = [EvCreate (mkHandle configmaps "ns1") cfg1;
            EvLog "Resource successfully created";
            EvCreate (mkHandle configmaps "ns1") cfg1;
            EvLog "Already exists"].
Proof.
  split.
  - apply (proj1 (applyRequest_create_idempotent cluster cfg1 (bound withCfg1)
                    (mkHandle configmaps "ns1") eq_refl)
                 (alreadyExists "cfg1") withCfg1); reflexivity.
  - apply (proj2 (applyRequest_create_idempotent cluster cfg1 (bound emptyStore)
                    (mkHandle configmaps "ns1") eq_refl)
                 cluster_reports_existing (SetResourceVersion "1" cfg1)).
    reflexivity.
Defined.

Lemma applyRequest_update_stamps_version_witness :
  applyRequest cluster "update" cfg1 (bound emptyStore)
  = (Returned (cfg1, (None, None)),
     mkWorld emptyStore (Some (mkHandle configmaps "ns1"))
             [EvGet (mkHandle configmaps "ns1") "cfg1"; EvLog "cfg1 not found"])
  /\ exists out logs,
      applyRequest cluster "update" cfg1 (bound withCfg1)
      = (Returned (SetResourceVersion "7" cfg1, out),
         mkWorld (mkMemStore [(mkHandle configmaps "ns1",
                               SetResourceVersion "71" cfg1)] None true)
                 (Some (mkHandle configmaps "ns1"))
                 ([EvGet (mkHandle configmaps "ns1") "cfg1"]
                    ++ [EvUpdate (mkHandle configmaps "ns1")
                                 (SetResourceVersion "7" cfg1)]
                    ++ logs))
      /\ out = (Some (SetResourceVersion "71" cfg1), None)
      /\ Forall (fun ev => exists line, ev = EvLog line) logs.
Proof.
  pose proof (applyRequest_update_stamps_version cluster cfg1 (bound emptyStore)
                (mkHandle configmaps "ns1") eq_refl) as Habsent.
  pose proof (applyRequest_update_stamps_version cluster cfg1 (bound withCfg1)
                (mkHandle configmaps "ns1") eq_refl) as Hlive.
  split.
  - apply (proj1 Habsent (notFound "cfg1") emptyStore); reflexivity.
  - apply (proj1 (proj2 Hlive) (SetResourceVersion "7" cfg1) withCfg1
                 (inl (SetResourceVersion "71" cfg1))); reflexivity.
Defined.

Lemma applyRequest_get_delete_absent_witness :
  (exists w1, applyRequest cluster "get" cfg1 (bound emptyStore)
              = (Returned (cfg1, (None, None)), w1))
  /\ (exists w1, applyRequest cluster "delete" cfg1 (bound emptyStore)
                 = (Returned (cfg1, (None, None)), w1))
  /\ (exists w1, applyRequest cluster "delete" cfg1 (bound withCfg1)
                 = (Returned (cfg1, (Some emptyUnstructured, None)), w1)).
Proof.
  pose proof (applyRequest_get_delete_absent cluster cfg1 (bound emptyStore)
                (mkHandle configmaps "ns1") eq_refl) as Habsent.
  pose proof (applyRequest_get_delete_absent cluster cfg1 (bound withCfg1)
                (mkHandle configmaps "ns1") eq_refl) as Hlive.
  split; [|split].
  - apply (proj1 Habsent (notFound "cfg1") emptyStore); reflexivity.
  - apply (proj1 (proj2 Habsent) (notFound "cfg1") emptyStore); reflexivity.
  - apply (proj2 (proj2 Hlive) emptyStore); reflexivity.
Defined.

Lemma IsClusterConfirmed_cases_witness :
  fst (IsClusterConfirmed cluster (start registered))
  = Returned (true, "abc", None)
  /\ fst (IsClusterConfirmed cluster (start emptyStore))
     = Returned (false, "", None)
  /\ fst (IsClusterConfirmed (clusterIn "locked") (start registered))
     = Returned (false, "", Some forbidden)
  /\ IsClusterConfirmed cluster (start (mkMemStore [] None false))
     = (Returned (false, "", Some unreachable), start (mkMemStore [] None false)).
Proof.
  split; [|split; [|split]].
  - exact (proj1 (IsClusterConfirmed_cases cluster (start registered))
                 (mkConfigMap {[ "is_cluster_confirmed" := "true";
                                 "cluster_key" := "abc";
                                 "cluster_id" := "123" ]})
                 registered eq_refl eq_refl eq_refl).
  - apply (proj1 (proj2 (IsClusterConfirmed_cases cluster (start emptyStore)))
                 (notFound PortalConfigName) emptyStore); reflexivity.
  - apply (proj1 (proj2 (proj2 (IsClusterConfirmed_cases (clusterIn "locked")
                                  (start registered))))
                 forbidden registered); reflexivity.
  - apply (proj2 (proj2 (proj2 (IsClusterConfirmed_cases cluster
                                  (start (mkMemStore [] None false)))))
                 unreachable); reflexivity.
Defined.

Lemma ClusterOperations_cluster_wide_ignores_namespace_witness :
  ClusterOperations cluster "ns1.json" "create" "team-a" (start emptyStore)
  = ClusterOperations cluster "ns1.json" "create" "" (start emptyStore)
  /\ dr (snd (ClusterOperations cluster "ns1.json" "create" "team-a"
                                (start emptyStore)))
     = Some (Resource namespaces).
Proof.
  apply (ClusterOperations_cluster_wide_ignores_namespace cluster "ns1.json"
           "create" "team-a" "" (start emptyStore) ns1 nsKind
           (mkRESTMapping namespaces RESTScopeNameRoot)).
  - apply resolves_ns1. reflexivity.
  - reflexivity.
Defined.



(** C8 (counterexample).  Two calls in a row with the same manifest, hence
    the same kind+version, issue two discovery queries, not one at most. *)
Lemma ClusterOperations_two_calls_two_discoveries :
  List.filter is_discovery
    (trace (snd (ClusterOperations cluster "cfg1.json" "create" "ns1"
              (snd (ClusterOperations cluster "cfg1.json" "create" "ns1"
                      (start emptyStore))))))
  = [EvDiscovery cfgKind; EvDiscovery cfgKind]
  /\ ~ discoveries
        (trace (snd (ClusterOperations cluster "cfg1.json" "create" "ns1"
                  (snd (ClusterOperations cluster "cfg1.json" "create" "ns1"
                          (start emptyStore))))))
      <= 1.
Proof.
  split; [reflexivity|]. vm_compute. lia.
Qed.

Lemma ClusterOperations_discovery_per_call_witness :
  discoveries
    (trace (snd (ClusterOperations cluster "cfg1.json" "create" "ns1"
                   (start emptyStore))))
  = 1
  /\ discoveries
       (trace (snd (ClusterOperations cluster "cfg1.json" "get" "ns1"
                 (snd (ClusterOperations cluster "cfg1.json" "create" "ns1"
                         (start emptyStore))))))
     = 2.
Proof.
  apply (ClusterOperations_discovery_per_call cluster "cfg1.json" "create" "ns1"
           "get" "ns1" (start emptyStore) cfg1 cfgKind).
  - exists "cfg1.json". split; [reflexivity | split; reflexivity].
  - exists "cfg1.json". split; [reflexivity | split; reflexivity].
Defined.

End Examples.

(** * Further properties *)

(** ** Frames of the dispatcher *)

Lemma store_requests_app (t1 t2 : list Event) :
  store_requests (t1 ++ t2) = store_requests t1 + store_requests t2.
Proof.
  unfold store_requests. rewrite List.filter_app, length_app. reflexivity.
Qed.

Lemma bounded_ret {S A} (h : ResourceInterface) (a : A) :
  bounded h 0 (@ret S A a).
Proof.
  intros w Hdr. exists []. simpl. rewrite app_nil_r.
  repeat split; auto.
Qed.

Lemma bounded_panic {S A} (h : ResourceInterface) (msg : string) :
  bounded h 0 (@panic S A msg).
Proof.
  intros w Hdr. exists []. simpl. rewrite app_nil_r.
  repeat split; auto.
Qed.

Lemma bounded_log {S} (h : ResourceInterface) (line : string) :
  bounded h 0 (@log S line).
Proof.
  intros w Hdr. exists [EvLog line]. simpl.
  repeat split; auto. repeat constructor.
Qed.

Lemma bounded_weaken {S A} (h : ResourceInterface) (n n' : nat) (m : M S A) :
  n <= n' -> bounded h n m -> bounded h n' m.
Proof.
  intros Hle Hm w Hdr. destruct (Hm w Hdr) as (evs & Ht & Hon & Hn & Hd).
  exists evs. repeat split; auto. lia.
Qed.

Lemma bounded_bind {S A B} (h : ResourceInterface) (n1 n2 : nat)
    (m : M S A) (k : A -> M S B) :
  bounded h n1 m -> (forall a, bounded h n2 (k a)) ->
  bounded h (n1 + n2) (bind m k).
Proof.
  intros Hm Hk w Hdr. unfold bind.
  destruct (Hm w Hdr) as (evs & Ht & Hon & Hn & Hd).
  destruct (m w) as [[a|msg] w1]; simpl in *.
  - destruct (Hk a w1 Hd) as (evs' & Ht' & Hon' & Hn' & Hd').
    exists (evs ++ evs')%list. rewrite Ht', Ht, app_assoc, store_requests_app.
    repeat split; auto.
    + apply Forall_app. auto.
    + lia.
  - exists evs. repeat split; auto. lia.
Qed.

Section Bounds.

Context {S : Type} (K : Cluster S).

(* One event on the handle, by a client call that reads dr. *)
Ltac one_request ev op :=
  let w := fresh "w" in
  let Hdr := fresh "Hdr" in
  intros w Hdr; exists [ev];
  destruct w as [s0 d t]; simpl in Hdr; subst d;
  unfold dr_Create, dr_Get, dr_Update, dr_Delete, dr_List,
    bind, ret, request, get_dr; simpl;
  destruct (op s0); simpl;
  repeat split; auto; repeat constructor.

Lemma bounded_dr_Create h obj : bounded h 1 (dr_Create K obj).
Proof. one_request (EvCreate h obj) (apiCreate K h obj). Qed.

Lemma bounded_dr_Get h name : bounded h 1 (dr_Get K name).
Proof. one_request (EvGet h name) (apiGet K h name). Qed.

Lemma bounded_dr_Update h obj : bounded h 1 (dr_Update K obj).
Proof. one_request (EvUpdate h obj) (apiUpdate K h obj). Qed.

Lemma bounded_dr_Delete h name : bounded h 1 (dr_Delete K name).
Proof. one_request (EvDelete h name) (apiDelete K h name). Qed.

Lemma bounded_dr_List h sel : bounded h 1 (dr_List K sel).
Proof. one_request (EvList h sel) (apiList K h sel). Qed.

(* What follows a client call in applyRequest: log lines and returns. *)
Ltac tail :=
  repeat first
    [ apply bounded_ret | apply bounded_panic
    | apply (bounded_bind _ 0 0); [apply bounded_log | intros]
    | match goal with
      | |- bounded _ _ (match ?x with _ => _ end) => destruct x
      | |- bounded _ _ (let (_, _) := ?x in _) => destruct x
      end ].

Lemma bounded_applyRequest h requestType obj :
  bounded h (if String.eqb requestType "update" then 2 else 1)
          (applyRequest K requestType obj).
Proof.
  unfold applyRequest.
  destruct (String.eqb requestType "create") eqn:Hc.
  { apply String.eqb_eq in Hc. subst requestType. simpl.
    apply (bounded_bind _ 1 0); [apply bounded_dr_Create|]. intros. tail. }
  destruct (String.eqb requestType "update") eqn:Hu.
  { apply (bounded_bind _ 1 1); [apply bounded_dr_Get|]. intros [getObj err].
    destruct (IsNotFound err); [apply (bounded_weaken _ 0); [lia|tail]|].
    destruct (bool_decide (err <> None));
      [apply (bounded_weaken _ 0); [lia|tail]|].
    destruct getObj as [live|]; [|apply (bounded_weaken _ 0); [lia|tail]].
    apply (bounded_bind _ 1 0); [apply bounded_dr_Update|]. intros. tail. }
  destruct (String.eqb requestType "delete") eqn:Hd.
  { apply (bounded_bind _ 1 0); [apply bounded_dr_Delete|]. intros. tail. }
  destruct (String.eqb requestType "get") eqn:Hg.
  { apply (bounded_bind _ 1 0); [apply bounded_dr_Get|]. intros. tail. }
  apply (bounded_weaken _ 0); [lia|apply bounded_ret].
Qed.

Lemma bounded_retargetAndApply h requestType obj :
  bounded h 3 (retargetAndApply K requestType obj).
Proof.
  unfold retargetAndApply, Items0.
  assert (Happly : forall o,
             bounded h 2 (let* r := applyRequest K requestType o in ret (snd r))).
  { intros o. apply (bounded_bind _ 2 0); [|intros; apply bounded_ret].
    apply (bounded_weaken _ (if String.eqb requestType "update" then 2 else 1));
      [destruct (String.eqb requestType "update"); lia
      |apply bounded_applyRequest]. }
  destruct (labelAddressed obj).
  - apply (bounded_bind _ 1 2); [apply bounded_dr_List|]. intros [pods err].
    destruct (bool_decide (err <> None));
      [apply (bounded_weaken _ 0); [lia|apply bounded_ret]|].
    apply (bounded_bind _ 0 2).
    + destruct pods as [items|]; [|apply bounded_panic].
      destruct (items !! 0%nat); [apply bounded_ret | apply bounded_panic].
    + intros item. apply Happly.
  - apply (bounded_weaken _ 2); [lia|apply Happly].
Qed.

End Bounds.

Section ClusterOpsMore.

Context {S : Type} (K : Cluster S).

(** X1.  A manifest that does not convert, clients that cannot be built
    (whatever the manifest then decodes to) and a manifest that does not
    decode each make [ClusterOperations] return that very error with a nil
    object, and leave the process as it was: no discovery query, no store
    request, dr not reassigned. *)
Theorem ClusterOperations_early_errors (manifest requestType namespace : string)
    (w : World S) :
  (forall err,
      JSONToYAML K manifest = inr err ->
      ClusterOperations K manifest requestType namespace w
      = (Returned (None, Some err), w))
  /\ (forall yamlStr err,
      JSONToYAML K manifest = inl yamlStr ->
      GetDynamicAndDiscoveryClient K (store w) = Some err ->
      ClusterOperations K manifest requestType namespace w
      = (Returned (None, Some err), w))
  /\ (forall yamlStr err,
      JSONToYAML K manifest = inl yamlStr ->
      GetDynamicAndDiscoveryClient K (store w) = None ->
      Decode K yamlStr = inr err ->
      ClusterOperations K manifest requestType namespace w
      = (Returned (None, Some err), w)).
Proof.
  unfold ClusterOperations. split; [|split].
  - intros err Hy. rewrite Hy. reflexivity.
  - intros yamlStr err Hy Hc. rewrite Hy, Hc. reflexivity.
  - intros yamlStr err Hy Hc Hd. rewrite Hy, Hc, Hd. reflexivity.
Qed.

(** X2.  When the catalog does not know the kind+version,
    [ClusterOperations] returns the catalog's error after that one
    discovery query; the store is not touched and dr keeps whatever handle
    an earlier call left in it. *)
Theorem ClusterOperations_unknown_kind_keeps_handle
    (manifest requestType namespace : string) (w : World S) obj gvk err :
  decodes K manifest (store w) obj gvk ->
  catalog K gvk (store w) = inr err ->
  ClusterOperations K manifest requestType namespace w
  = (Returned (None, Some err),
     mkWorld (store w) (dr w) (trace w ++ [EvDiscovery gvk])).
Proof.
  intros Hdec Hm.
  exact (ClusterOperations_unknown_type K manifest requestType namespace w
           obj gvk err Hdec Hm).
Qed.

(** X3.  For a label-addressed kind whose list request returns at least
    one item, the object is renamed to the first item listed, whatever
    follows it in the list, and the call is the dispatcher's run on the
    renamed object. *)
Theorem ClusterOperations_retargets_first_match
    (manifest requestType namespace : string) (w : World S)
    obj gvk mapping item others s1 :
  resolves K manifest (store w) obj gvk mapping ->
  labelAddressed obj = true ->
  apiList K (boundHandle mapping namespace)
          (index (GetLabels obj) "workflow_id") (store w)
  = (inl (item :: others), s1) ->
  ClusterOperations K manifest requestType namespace w
  = (let* r := applyRequest K requestType (SetName (GetName item) obj) in
     ret (snd r))
      (mkWorld s1 (Some (boundHandle mapping namespace))
               (trace w ++ [EvDiscovery gvk]
                       ++ [EvList (boundHandle mapping namespace)
                                  (index (GetLabels obj) "workflow_id")])).
Proof.
  intros Hres Hkind Hlist.
  rewrite (ClusterOperations_resolved K _ _ _ _ obj gvk mapping Hres).
  unfold retargetAndApply. rewrite Hkind.
  unfold dr_List, Items0, get_dr, request, bind, ret. simpl.
  rewrite Hlist. tidy. rewrite <- app_assoc. reflexivity.
Qed.

(** X4.  For a label-addressed kind the name written in the manifest
    plays no part: two manifests that decode to objects differing only in
    the name make the same requests, return the same result and leave the
    same process state. *)
Theorem ClusterOperations_label_kind_ignores_name
    (manifest1 manifest2 requestType namespace name : string) (w : World S)
    obj gvk mapping :
  resolves K manifest1 (store w) obj gvk mapping ->
  resolves K manifest2 (store w) (SetName name obj) gvk mapping ->
  labelAddressed obj = true ->
  ClusterOperations K manifest1 requestType namespace w
  = ClusterOperations K manifest2 requestType namespace w.
Proof.
  intros Hres1 Hres2 Hkind.
  rewrite (ClusterOperations_resolved K _ _ _ _ obj gvk mapping Hres1).
  rewrite (ClusterOperations_resolved K _ _ _ _ (SetName name obj) gvk mapping
             Hres2).
  unfold retargetAndApply.
  change (labelAddressed (SetName name obj)) with (labelAddressed obj).
  rewrite Hkind. reflexivity.
Qed.

(** X5.  A manifest of a label-addressed kind that carries no workflow_id
    label is listed with the empty text as its label selector: the list
    request, the first store request after the discovery query and sent on
    the bound handle, carries the selector that reading the missing key
    gives.  What the store returns for it is the store's own answer. *)
Theorem ClusterOperations_missing_label_selects_all
    (manifest requestType namespace : string) (w : World S) obj gvk mapping :
  resolves K manifest (store w) obj gvk mapping ->
  labelAddressed obj = true ->
  GetLabels obj !! "workflow_id" = None ->
  exists rest,
    trace (snd (ClusterOperations K manifest requestType namespace w))
    = (trace w ++ [EvDiscovery gvk]
               ++ [EvList (boundHandle mapping namespace) ""] ++ rest)%list.
Proof.
  intros Hres Hkind Hlabel.
  rewrite (ClusterOperations_resolved K _ _ _ _ obj gvk mapping Hres).
  destruct (retargetAndApply_lists_first K requestType obj
              (mkWorld (store w) (Some (boundHandle mapping namespace))
                       (trace w ++ [EvDiscovery gvk]))
              (boundHandle mapping namespace) Hkind eq_refl)
    as (rest & Ht).
  exists rest. rewrite Ht. unfold index. rewrite Hlabel. simpl.
  rewrite <- app_assoc. reflexivity.
Qed.

(** X6.  Once the type is resolved, everything [ClusterOperations] asks of
    the backing store goes through the one handle it has bound: after the
    discovery query the trace grows by at most three store requests (list,
    get, update), every one of them on that handle, and dr is left bound to
    it whether the call returns or panics. *)
Theorem ClusterOperations_requests_on_bound_handle
    (manifest requestType namespace : string) (w : World S) obj gvk mapping :
  resolves K manifest (store w) obj gvk mapping ->
  exists evs,
    trace (snd (ClusterOperations K manifest requestType namespace w))
    = (trace w ++ [EvDiscovery gvk] ++ evs)%list
    /\ Forall (on_handle (boundHandle mapping namespace)) evs
    /\ store_requests evs <= 3
    /\ dr (snd (ClusterOperations K manifest requestType namespace w))
       = Some (boundHandle mapping namespace).
Proof.
  intros Hres.
  rewrite (ClusterOperations_resolved K _ _ _ _ obj gvk mapping Hres).
  destruct (bounded_retargetAndApply K (boundHandle mapping namespace)
              requestType obj
              (mkWorld (store w) (Some (boundHandle mapping namespace))
                       (trace w ++ [EvDiscovery gvk]) ) eq_refl)
    as (evs & Ht & Hon & Hn & Hd).
  exists evs. rewrite Ht. simpl. rewrite <- app_assoc. auto.
Qed.

(** X8.  The request type is looked at last: for a kind that is not
    label-addressed, a request type outside create, update, get and delete
    is refused only after the discovery query has been made and dr has
    been rebound; the store itself is not touched. *)
Theorem ClusterOperations_invalid_verb_checked_last
    (manifest requestType namespace : string) (w : World S) obj gvk mapping :
  resolves K manifest (store w) obj gvk mapping ->
  labelAddressed obj = false ->
  requestType <> "create" -> requestType <> "update" ->
  requestType <> "get" -> requestType <> "delete" ->
  ClusterOperations K manifest requestType namespace w
  = (Returned (None, Some invalidRequest),
     mkWorld (store w) (Some (boundHandle mapping namespace))
             (trace w ++ [EvDiscovery gvk])).
Proof.
  intros Hres Hkind Hc Hu Hg Hd.
  rewrite (ClusterOperations_resolved K _ _ _ _ obj gvk mapping Hres).
  unfold retargetAndApply. rewrite Hkind. unfold applyRequest.
  apply String.eqb_neq in Hc, Hu, Hg, Hd.
  rewrite Hc, Hu, Hg, Hd. reflexivity.
Qed.

End ClusterOpsMore.

Section Panics.

Context {S : Type} (K : Cluster S).

Ltac settle :=
  repeat (tidy;
          try match goal with
              | |- context [if ?b then _ else _] => destruct b
              end);
  eexists; reflexivity.

(* With dr bound the dispatcher always returns. *)
Lemma applyRequest_returns (requestType : string) (obj : Unstructured)
    (w : World S) (h : ResourceInterface) :
  dr w = Some h ->
  exists r, fst (applyRequest K requestType obj w) = Returned r.
Proof.
  intros Hdr. open_world w Hdr. unfold applyRequest.
  destruct (String.eqb requestType "create").
  { run. destruct (apiCreate K h obj s0) as [[o|e] s1]; settle. }
  destruct (String.eqb requestType "update").
  { run. destruct (apiGet K h (GetName obj) s0) as [[live|e] s1]; tidy.
    - destruct (apiUpdate K h _ s1) as [[o|e] s2]; settle.
    - settle. }
  destruct (String.eqb requestType "delete").
  { run. destruct (apiDelete K h (GetName obj) s0) as [[e|] s1]; settle. }
  destruct (String.eqb requestType "get").
  { run. destruct (apiGet K h (GetName obj) s0) as [[live|e] s1]; settle. }
  eexists; reflexivity.
Qed.

Lemma apply_and_return (requestType : string) (obj : Unstructured)
    (w : World S) (h : ResourceInterface) :
  dr w = Some h ->
  exists r,
    fst ((let* r := applyRequest K requestType obj in ret (snd r)) w)
    = Returned r.
Proof.
  intros Hdr. destruct (applyRequest_returns requestType obj w h Hdr) as [r Hr].
  unfold bind. destruct (applyRequest K requestType obj w) as [o w1].
  simpl in Hr. subst o. eexists. reflexivity.
Qed.

(** X7.  [ClusterOperations] panics in one situation only: the manifest
    resolves to a label-addressed kind and the list request returns no
    item and no error.  The panic is then the index out of range; every
    other call returns to its caller. *)
Theorem ClusterOperations_panics_only_on_empty_list
    (manifest requestType namespace : string) (w : World S) (msg : string) :
  fst (ClusterOperations K manifest requestType namespace w) = Panicked msg ->
  msg = "index out of range [0] with length 0"
  /\ exists obj gvk mapping s1,
      resolves K manifest (store w) obj gvk mapping
      /\ labelAddressed obj = true
      /\ apiList K (boundHandle mapping namespace)
                 (index (GetLabels obj) "workflow_id") (store w)
         = (inl [], s1).
Proof.
  intros Hp.
  destruct (JSONToYAML K manifest) as [yamlStr|err] eqn:Hy;
    [|unfold ClusterOperations in Hp; rewrite Hy in Hp; discriminate].
  destruct (GetDynamicAndDiscoveryClient K (store w)) as [err|] eqn:Hc;
    [unfold ClusterOperations in Hp; rewrite Hy, Hc in Hp; discriminate|].
  destruct (Decode K yamlStr) as [[obj gvk]|err] eqn:Hd;
    [|unfold ClusterOperations in Hp; rewrite Hy, Hc, Hd in Hp; discriminate].
  assert (Hdec : decodes K manifest (store w) obj gvk)
    by (exists yamlStr; auto).
  destruct (catalog K gvk (store w)) as [mapping|err] eqn:Hm;
    [|rewrite (ClusterOperations_unknown_type K _ _ _ _ obj gvk err Hdec Hm)
        in Hp; discriminate].
  assert (Hres : resolves K manifest (store w) obj gvk mapping)
    by (split; assumption).
  rewrite (ClusterOperations_resolved K _ _ _ _ obj gvk mapping Hres) in Hp.
  unfold retargetAndApply in Hp.
  destruct (labelAddressed obj) eqn:Hkind.
  - pose proof (dr_List_run K (index (GetLabels obj) "workflow_id")
                  (mkWorld (store w) (Some (boundHandle mapping namespace))
                           (trace w ++ [EvDiscovery gvk]))
                  (boundHandle mapping namespace) eq_refl) as Hrun.
    rewrite (bind_returned _ _ _ _ _ Hrun) in Hp. clear Hrun.
    simpl in Hp.
    destruct (apiList K (boundHandle mapping namespace)
                      (index (GetLabels obj) "workflow_id") (store w))
      as [[[|item others]|e] s1] eqn:Hlist; simpl in Hp;
      rewrite ?err_nil, ?err_not_nil in Hp.
    + unfold Items0, bind, panic in Hp. simpl in Hp.
      injection Hp as Hmsg. split; [auto|].
      exists obj, gvk, mapping, s1. auto.
    + unfold Items0 in Hp. simpl in Hp.
      rewrite (bind_returned (ret item) _ _ _ item eq_refl) in Hp.
      match type of Hp with
      | fst (?m ?w0) = _ =>
          destruct (apply_and_return requestType
                      (SetName (GetName item) obj) w0
                      (boundHandle mapping namespace) eq_refl) as [r Hr]
      end.
      rewrite Hr in Hp. discriminate.
    + discriminate.
  - match type of Hp with
    | fst (?m ?w0) = _ =>
        destruct (apply_and_return requestType obj w0
                    (boundHandle mapping namespace) eq_refl) as [r Hr]
    end.
    rewrite Hr in Hp. discriminate.
Qed.

End Panics.

Section DispatcherMore.

Context {S : Type} (K : Cluster S).

(** X9.  Apart from the two benign answers, [applyRequest] hands every
    error of the backing store back unchanged, with a nil object: an error
    of the create other than "already exists" (a "not found" included), an
    error of the get or delete other than "not found", and any error at all
    of the update itself, a "not found" for an object deleted since the
    get included. *)
Theorem applyRequest_propagates_errors (obj : Unstructured) (w : World S)
    (h : ResourceInterface) :
  dr w = Some h ->
  (forall e s1,
      apiCreate K h obj (store w) = (inr e, s1) ->
      IsAlreadyExists (Some e) = false ->
      fst (applyRequest K "create" obj w) = Returned (obj, (None, Some e)))
  /\ (forall e s1,
      apiGet K h (GetName obj) (store w) = (inr e, s1) ->
      IsNotFound (Some e) = false ->
      fst (applyRequest K "get" obj w) = Returned (obj, (None, Some e))
      /\ fst (applyRequest K "update" obj w) = Returned (obj, (None, Some e)))
  /\ (forall e s1,
      apiDelete K h (GetName obj) (store w) = (Some e, s1) ->
      IsNotFound (Some e) = false ->
      fst (applyRequest K "delete" obj w) = Returned (obj, (None, Some e)))
  /\ (forall live s1 e s2,
      apiGet K h (GetName obj) (store w) = (inl live, s1) ->
      apiUpdate K h (SetResourceVersion (GetResourceVersion live) obj) s1
      = (inr e, s2) ->
      fst (applyRequest K "update" obj w)
      = Returned (SetResourceVersion (GetResourceVersion live) obj,
                  (None, Some e))).
Proof.
  intros Hdr. split; [|split; [|split]].
  - intros e s1 Hc He.
    rewrite (applyRequest_create_error K obj w h e s1 Hdr Hc He). reflexivity.
  - intros e s1 Hg He. split.
    + rewrite (applyRequest_get_error K obj w h e s1 Hdr Hg He). reflexivity.
    + rewrite (applyRequest_update_get_error K obj w h e s1 Hdr Hg He).
      reflexivity.
  - intros e s1 Hd He.
    rewrite (applyRequest_delete_error K obj w h e s1 Hdr Hd He). reflexivity.
  - intros live s1 e s2 Hg Hu.
    rewrite (applyRequest_update_submitted K obj w h live s1 (inr e) s2
               Hdr Hg Hu).
    reflexivity.
Qed.

(** X10.  [applyRequest] never retries and never leaves its handle: with
    dr bound to a handle, a call makes at most one store request (at most
    two for an update: the get and the update), every request is on that
    handle, and dr is still bound to it afterwards. *)
Theorem applyRequest_no_retry (requestType : string) (obj : Unstructured)
    (w : World S) (h : ResourceInterface) :
  dr w = Some h ->
  exists evs,
    trace (snd (applyRequest K requestType obj w)) = (trace w ++ evs)%list
    /\ Forall (on_handle h) evs
    /\ store_requests evs <= (if String.eqb requestType "update" then 2 else 1)
    /\ dr (snd (applyRequest K requestType obj w)) = Some h.
Proof.
  intros Hdr. exact (bounded_applyRequest K h requestType obj w Hdr).
Qed.

Lemma applyRequest_object (requestType : string) (obj : Unstructured)
    (w : World S) :
  match fst (applyRequest K requestType obj w) with
  | Returned (obj', _) =>
      same_but_version obj obj'
      /\ (String.eqb requestType "update" = false -> obj' = obj)
  | Panicked _ => True
  end.
Proof.
  assert (Hsame : same_but_version obj obj) by (repeat split).
  assert (Hset : forall rv, same_but_version obj (SetResourceVersion rv obj))
    by (intros rv; repeat split).
  pose proof (conj Hsame (fun _ : String.eqb requestType "update" = false =>
                            eq_refl obj)) as Hkeep.
  unfold applyRequest.
  destruct (String.eqb requestType "create").
  { destruct w as [s0 [h|] t]; run; [|exact I].
    destruct (apiCreate K h obj s0) as [[o|e] s1]; tidy;
      [|destruct (IsAlreadyExists (Some e)); tidy]; exact Hkeep. }
  destruct (String.eqb requestType "update").
  { destruct w as [s0 [h|] t]; run; [|exact I].
    destruct (apiGet K h (GetName obj) s0) as [[live|e] s1]; tidy.
    - destruct (apiUpdate K h _ s1) as [[o|e] s2]; tidy;
        (split; [apply Hset | discriminate]).
    - destruct (IsNotFound (Some e)); tidy;
        (split; [exact Hsame | discriminate]). }
  destruct (String.eqb requestType "delete").
  { destruct w as [s0 [h|] t]; run; [|exact I].
    destruct (apiDelete K h (GetName obj) s0) as [[e|] s1]; tidy;
      [destruct (IsNotFound (Some e)); tidy|]; exact Hkeep. }
  destruct (String.eqb requestType "get").
  { destruct w as [s0 [h|] t]; run; [|exact I].
    destruct (apiGet K h (GetName obj) s0) as [[live|e] s1]; tidy;
      [|destruct (IsNotFound (Some e)); tidy]; exact Hkeep. }
  exact Hkeep.
Qed.

(** X11.  Whatever the request type and the answers of the store,
    [applyRequest] leaves the kind, the name, the labels and the rest of
    the caller's object as they were; only an update writes to the object,
    and only to its resource version. *)
Theorem applyRequest_keeps_object (requestType : string)
    (obj obj' : Unstructured) (out : option Unstructured * option error)
    (w w' : World S) :
  applyRequest K requestType obj w = (Returned (obj', out), w') ->
  same_but_version obj obj'
  /\ (requestType <> "update" -> obj' = obj).
Proof.
  intros Hrun. pose proof (applyRequest_object requestType obj w) as H.
  rewrite Hrun in H. simpl in H. destruct H as [Hs Hn].
  split; [exact Hs|]. intros Hne. apply Hn. now apply String.eqb_neq.
Qed.

(** X12.  [IsClusterConfirmed] is strict about the flag and loose about
    the key: a record that is there but whose is_cluster_confirmed entry is
    missing or is any text other than true gives (false, empty, nil), with
    the one read as the only thing done; and a confirmed record without a
    cluster_key entry gives (true, empty, nil). *)
Theorem IsClusterConfirmed_edge_records (w : World S) (cm : ConfigMap) (s1 : S) :
  GetGenericK8sClient K (store w) = None ->
  cmGet K (AgentNamespace K) PortalConfigName (store w) = (inl cm, s1) ->
  (index (cmData cm) "is_cluster_confirmed" <> "true" ->
   IsClusterConfirmed K w
   = (Returned (false, "", None),
      mkWorld s1 (dr w)
              (trace w ++ [EvConfigMapGet (AgentNamespace K) PortalConfigName])))
  /\ (cmData cm !! "is_cluster_confirmed" = Some "true" ->
      cmData cm !! "cluster_key" = None ->
      fst (IsClusterConfirmed K w) = Returned (true, "", None)).
Proof.
  intros Hc Hg. split.
  - intros Hflag. apply String.eqb_neq in Hflag.
    run. rewrite Hc. run. step Hg. rewrite Hflag. tidy. reflexivity.
  - intros Hflag Hkey. run. rewrite Hc. run. step Hg.
    unfold index. rewrite Hflag, Hkey. reflexivity.
Qed.

(** X13.  [IsClusterConfirmed] only reads: it never touches dr, and the
    only thing it adds to the trace is one get of the record
    litmus-portal-config in the agent's namespace, made exactly when the
    client could be built. *)
Theorem IsClusterConfirmed_reads_once (w : World S) :
  dr (snd (IsClusterConfirmed K w)) = dr w
  /\ trace (snd (IsClusterConfirmed K w))
     = (trace w
          ++ match GetGenericK8sClient K (store w) with
             | None => [EvConfigMapGet (AgentNamespace K) PortalConfigName]
             | Some _ => []
             end)%list.
Proof.
  destruct w as [s0 d t]. run.
  destruct (GetGenericK8sClient K s0) as [e|]; simpl.
  - rewrite app_nil_r. auto.
  - destruct (cmGet K (AgentNamespace K) PortalConfigName s0) as [[cm|e] s1];
      simpl;
      repeat (tidy;
              try match goal with
                  | |- context [if ?b then _ else _] => destruct b
                  end); auto.
Qed.

End DispatcherMore.

Section RegistrationProperties.

Context {S : Type} (K : Cluster S) (W : ConfigMapWriter S).

Lemma ClusterRegister_run (clusterData : gmap string string) (w : World S) :
  GetGenericK8sClient K (store w) = None ->
  ClusterRegister K W clusterData w
  = match cmCreate W (AgentNamespace K)
            (mkConfigMapObject "ConfigMap" "v1" PortalConfigName
               (<["cluster_id" := index clusterData "CID"]>
                  (<["cluster_key" := index clusterData "KEY"]>
                     (<["is_cluster_confirmed" := "true"]> ∅))))
            (store w) with
    | (inl _, s1) =>
        (Returned (true, None),
         mkWorld s1 (dr w) (trace w ++ [EvLog "Configmap created"]))
    | (inr e, s1) => (Returned (false, Some e), mkWorld s1 (dr w) (trace w))
    end.
Proof.
  intros Hc. unfold ClusterRegister, ConfigMaps_Create. rewrite Hc.
  unfold bind, ret, log. simpl.
  destruct (cmCreate W _ _ (store w)) as [[created|e] s1]; tidy; reflexivity.
Qed.

(** X14.  [ClusterRegister] has no benign failure.  When the client cannot
    be built it returns (false, err) and does nothing.  When the create of
    the record fails, for whatever reason and "already exists" included,
    it returns (false, err) with that error and logs nothing.  Only a
    create that succeeds gives (true, nil) and the log line.  dr is never
    touched. *)
Theorem ClusterRegister_outcomes (clusterData : gmap string string)
    (w : World S) :
  (forall err,
      GetGenericK8sClient K (store w) = Some err ->
      ClusterRegister K W clusterData w = (Returned (false, Some err), w))
  /\ (GetGenericK8sClient K (store w) = None ->
      forall r s1,
        cmCreate W (AgentNamespace K)
          (mkConfigMapObject "ConfigMap" "v1" PortalConfigName
             (<["cluster_id" := index clusterData "CID"]>
                (<["cluster_key" := index clusterData "KEY"]>
                   (<["is_cluster_confirmed" := "true"]> ∅))))
          (store w) = (r, s1) ->
        ClusterRegister K W clusterData w
        = match r with
          | inl _ =>
              (Returned (true, None),
               mkWorld s1 (dr w) (trace w ++ [EvLog "Configmap created"]))
          | inr e =>
              (Returned (false, Some e), mkWorld s1 (dr w) (trace w))
          end).
Proof.
  split.
  - intros err Hc. unfold ClusterRegister. rewrite Hc. reflexivity.
  - intros Hc r s1 Hcreate. rewrite (ClusterRegister_run _ _ Hc), Hcreate.
    reflexivity.
Qed.

(** X15.  Registration and the registration check agree: on a store that
    hands back the record it has just been given, a [ClusterRegister] that
    succeeded is followed by an [IsClusterConfirmed] that returns true with
    the KEY entry of the registration data as the cluster key (the empty
    text when the data had no KEY). *)
Theorem ClusterRegister_then_confirmed (clusterData : gmap string string)
    (w : World S) :
  keeps_record K W ->
  fst (ClusterRegister K W clusterData w) = Returned (true, None) ->
  fst (IsClusterConfirmed K (snd (ClusterRegister K W clusterData w)))
  = Returned (true, index clusterData "KEY", None).
Proof.
  intros Hlaw Hok.
  destruct (GetGenericK8sClient K (store w)) as [err|] eqn:Hc.
  { unfold ClusterRegister in Hok. rewrite Hc in Hok. discriminate. }
  rewrite (ClusterRegister_run _ _ Hc) in Hok |- *.
  destruct (cmCreate W _ _ (store w)) as [[created|e] s1] eqn:Hcreate;
    [|discriminate].
  destruct (Hlaw _ _ _ _ _ Hcreate) as (Hc1 & s2 & Hget). simpl in Hget.
  run. rewrite Hc1. run. step Hget.
  unfold index at 1. rewrite lookup_insert_ne by discriminate.
  rewrite lookup_insert_ne by discriminate. rewrite lookup_insert_eq. simpl.
  unfold index at 1. rewrite lookup_insert_ne by discriminate.
  rewrite lookup_insert_eq. reflexivity.
Qed.

(* While the record's name is taken, no registration of a run succeeds. *)
Lemma registrations_refused (taken : string -> string -> S -> Prop) :
  (forall ns cm s,
      taken ns (cmoName cm) s ->
      GetGenericK8sClient K s = None
      /\ exists e s1, cmCreate W ns cm s = (inr e, s1)
                      /\ IsAlreadyExists (Some e) = true
                      /\ taken ns (cmoName cm) s1) ->
  forall (later : list (gmap string string)) (w : World S),
    taken (AgentNamespace K) PortalConfigName (store w) ->
    Forall (fun outcome =>
              exists e, outcome = Returned (false, Some e)
                        /\ IsAlreadyExists (Some e) = true)
           (fst (registrations K W later w)).
Proof.
  intros Hkeep later. induction later as [|clusterData more IH]; intros w Htaken.
  - constructor.
  - destruct (Hkeep (AgentNamespace K)
                (mkConfigMapObject "ConfigMap" "v1" PortalConfigName
                   (<["cluster_id" := index clusterData "CID"]>
                      (<["cluster_key" := index clusterData "KEY"]>
                         (<["is_cluster_confirmed" := "true"]> ∅))))
                (store w) Htaken)
      as (Hc & e & s1 & Hcreate & He & Htaken1).
    cbn [registrations]. rewrite (ClusterRegister_run clusterData w Hc), Hcreate.
    specialize (IH (mkWorld s1 (dr w) (trace w)) Htaken1).
    destruct (registrations K W more (mkWorld s1 (dr w) (trace w)))
      as [outcomes w2].
    cbn [fst] in *. constructor; [|exact IH].
    exists e. auto.
Qed.

(** X16.  Registration happens at most once: on a store that, once it
    holds the record, refuses for good to create it again, a
    [ClusterRegister] that succeeded makes every registration of any run of
    further ones fail with the store's "already exists" error, whatever
    data each brings.  There is no update path. *)
Theorem ClusterRegister_at_most_once (clusterData : gmap string string)
    (later : list (gmap string string)) (w : World S) :
  refuses_for_good K W ->
  fst (ClusterRegister K W clusterData w) = Returned (true, None) ->
  Forall (fun outcome =>
            exists e, outcome = Returned (false, Some e)
                      /\ IsAlreadyExists (Some e) = true)
         (fst (registrations K W later
                 (snd (ClusterRegister K W clusterData w)))).
Proof.
  intros (taken & Hmark & Hkeep) Hok.
  destruct (GetGenericK8sClient K (store w)) as [err|] eqn:Hc.
  { unfold ClusterRegister in Hok. rewrite Hc in Hok. discriminate. }
  rewrite (ClusterRegister_run _ _ Hc) in Hok |- *.
  destruct (cmCreate W _ _ (store w)) as [[created|e] s1] eqn:Hcreate;
    [|discriminate].
  apply (registrations_refused taken Hkeep). cbn [snd store].
  exact (Hmark _ _ _ _ _ Hcreate).
Qed.

End RegistrationProperties.

Section MemRegistryFacts.

Import MemCluster MemRegistry.

Lemma created_record (ns : string) (cm created : ConfigMapObject)
    (s s1 : MemStore) :
  createRecord ns cm s = (inl created, s1) ->
  reachable s = true /\ String.eqb ns "locked" = false
  /\ s1 = mkMemStore (objects s) (Some (mkConfigMap (cmoData cm))) true.
Proof.
  unfold createRecord.
  destruct (reachable s) eqn:Hr; simpl; [|discriminate].
  destruct (String.eqb ns "locked") eqn:Hl; [discriminate|].
  destruct (portalConfig s); [discriminate|].
  intros Heq. injection Heq as _ Hs1. auto.
Qed.

Lemma registry_keeps_record : keeps_record cluster writer.
Proof.
  intros ns cm s created s1 Hcreate.
  destruct (created_record _ _ _ _ _ Hcreate) as (Hr & Hl & Hs1). subst s1.
  split; [reflexivity|]. eexists.
  unfold cluster, clusterIn. cbn [cmGet]. unfold configMapGet.
  rewrite Hl. reflexivity.
Qed.

Lemma registry_refuses_for_good : refuses_for_good cluster writer.
Proof.
  exists (fun ns _ s =>
            reachable s = true /\ String.eqb ns "locked" = false
            /\ portalConfig s <> None).
  split.
  - intros ns cm s created s1 Hcreate.
    destruct (created_record _ _ _ _ _ Hcreate) as (Hr & Hl & Hs1). subst s1.
    cbn [reachable portalConfig].
    split; [reflexivity | split; [exact Hl | discriminate]].
  - intros ns cm s (Hr & Hl & Hp).
    split; [cbn; unfold clients; rewrite Hr; reflexivity|].
    exists (alreadyExists (cmoName cm)), s.
    unfold writer. cbn [cmCreate]. unfold createRecord.
    rewrite Hr, Hl. cbn [negb].
    destruct (portalConfig s); [|congruence].
    split; [reflexivity | split; [reflexivity |]].
    split; [reflexivity | split; [reflexivity | discriminate]].
Qed.

End MemRegistryFacts.

(** ** The further properties at concrete inputs *)

Section MoreExamples.

Import MemCluster MemRegistry.

Ltac resolve_doc doc :=
  split; [exists doc; split; [reflexivity | split; reflexivity] | reflexivity].

Lemma ClusterOperations_early_errors_witness :
  ClusterOperations richCluster "broken.json" "create" "ns1" (start emptyStore)
  = (Returned (None, Some (errorString "invalid character")), start emptyStore)
  /\ ClusterOperations richCluster "cfg1.json" "create" "ns1"
       (start (mkMemStore [] None false))
     = (Returned (None, Some unreachable), start (mkMemStore [] None false))
  /\ ClusterOperations richCluster "nonsense.json" "create" "ns1"
       (start emptyStore)
     = (Returned (None, Some (errorString "Object 'Kind' is missing")),
        start emptyStore).
Proof.
  split; [|split].
  - apply (proj1 (ClusterOperations_early_errors richCluster "broken.json"
                    "create" "ns1" (start emptyStore))).
    reflexivity.
  - apply (proj1 (proj2 (ClusterOperations_early_errors richCluster "cfg1.json"
                           "create" "ns1" (start (mkMemStore [] None false))))
                 "cfg1.json"); reflexivity.
  - apply (proj2 (proj2 (ClusterOperations_early_errors richCluster
                           "nonsense.json" "create" "ns1" (start emptyStore)))
                 "nonsense.json"); reflexivity.
Defined.

Lemma ClusterOperations_unknown_kind_keeps_handle_witness :
  ClusterOperations richCluster "gadget.json" "get" "ns1" (bound withCfg1)
  = (Returned (None, Some (errorString "no matches for kind Gadget")),
     mkWorld withCfg1 (Some (mkHandle configmaps "ns1"))
             [EvDiscovery (mkGVK "" "v1" "Gadget")]).
Proof.
  apply (ClusterOperations_unknown_kind_keeps_handle richCluster "gadget.json"
           "get" "ns1" (bound withCfg1)
           (mkUnstructured "Gadget" "v1" "g" ∅ "" []) (mkGVK "" "v1" "Gadget")).
  - exists "gadget.json". split; [reflexivity | split; reflexivity].
  - reflexivity.
Defined.

Lemma ClusterOperations_retargets_first_match_witness :
  fst (ClusterOperations cluster "wf1.json" "get" "ns1" (start twoRuns))
  = Returned (Some (mkUnstructured "Workflow" "argoproj.io/v1alpha1" "run-x7k2"
                                   {["workflow_id" := "wf-1"]} "4" []),
              None)
  /\ List.last (trace (snd (ClusterOperations cluster "wf1.json" "get" "ns1"
                              (start twoRuns))))
               (EvLog "")
     = EvLog "Resource successfully retrieved"
  /\ In (EvGet (mkHandle workflows "ns1") "run-x7k2")
        (trace (snd (ClusterOperations cluster "wf1.json" "get" "ns1"
                       (start twoRuns)))).
Proof.
  rewrite (ClusterOperations_retargets_first_match cluster "wf1.json" "get"
             "ns1" (start twoRuns) wf1 wfKind
             (mkRESTMapping workflows RESTScopeNameNamespace)
             (mkUnstructured "Workflow" "argoproj.io/v1alpha1" "run-x7k2"
                             {["workflow_id" := "wf-1"]} "4" [])
             [mkUnstructured "Workflow" "argoproj.io/v1alpha1" "run-b9d1"
                             {["workflow_id" := "wf-1"]} "2" []]
             twoRuns
             (resolves_wf1 twoRuns eq_refl) eq_refl eq_refl).
  split; [reflexivity|]. split; [reflexivity|].
  right. right. left. reflexivity.
Defined.

Lemma ClusterOperations_label_kind_ignores_name_witness :
  ClusterOperations richCluster "wf1.json" "get" "ns1" (start twoRuns)
  = ClusterOperations richCluster "wf1-renamed.json" "get" "ns1" (start twoRuns).
Proof.
  apply (ClusterOperations_label_kind_ignores_name richCluster "wf1.json"
           "wf1-renamed.json" "get" "ns1" "another" (start twoRuns) wf1 wfKind
           (mkRESTMapping workflows RESTScopeNameNamespace)).
  - resolve_doc "wf1.json".
  - resolve_doc "wf1-renamed.json".
  - reflexivity.
Defined.

Lemma ClusterOperations_missing_label_selects_all_witness :
  exists rest,
    trace (snd (ClusterOperations richCluster "bare.json" "get" "ns1"
                  (start twoRuns)))
    = ([] ++ [EvDiscovery wfKind] ++ [EvList (mkHandle workflows "ns1") ""]
          ++ rest)%list.
Proof.
  apply (ClusterOperations_missing_label_selects_all richCluster "bare.json"
           "get" "ns1" (start twoRuns) bare wfKind
           (mkRESTMapping workflows RESTScopeNameNamespace)).
  - resolve_doc "bare.json".
  - reflexivity.
  - reflexivity.
Defined.

Lemma ClusterOperations_requests_on_bound_handle_witness :
  exists evs,
    trace (snd (ClusterOperations cluster "cfg1.json" "update" "ns1"
                  (start withCfg1)))
    = ([] ++ [EvDiscovery cfgKind] ++ evs)%list
    /\ Forall (on_handle (mkHandle configmaps "ns1")) evs
    /\ store_requests evs <= 3
    /\ dr (snd (ClusterOperations cluster "cfg1.json" "update" "ns1"
                  (start withCfg1)))
       = Some (mkHandle configmaps "ns1").
Proof.
  apply (ClusterOperations_requests_on_bound_handle cluster "cfg1.json" "update"
           "ns1" (start withCfg1) cfg1 cfgKind
           (mkRESTMapping configmaps RESTScopeNameNamespace)).
  apply resolves_cfg1. reflexivity.
Defined.

Lemma ClusterOperations_panics_only_on_empty_list_witness :
  "index out of range [0] with length 0" = "index out of range [0] with length 0"
  /\ exists obj gvk mapping s1,
      resolves cluster "wf1.json" emptyStore obj gvk mapping
      /\ labelAddressed obj = true
      /\ apiList cluster (boundHandle mapping "ns1")
                 (index (GetLabels obj) "workflow_id") emptyStore
         = (inl [], s1).
Proof.
  apply (ClusterOperations_panics_only_on_empty_list cluster "wf1.json" "get"
           "ns1" (start emptyStore)).
  reflexivity.
Defined.

Lemma ClusterOperations_invalid_verb_checked_last_witness :
  ClusterOperations cluster "cfg1.json" "patch" "ns1" (start emptyStore)
  = (Returned (None, Some invalidRequest),
     mkWorld emptyStore (Some (mkHandle configmaps "ns1")) [EvDiscovery cfgKind]).
Proof.
  apply (ClusterOperations_invalid_verb_checked_last cluster "cfg1.json" "patch"
           "ns1" (start emptyStore) cfg1 cfgKind
           (mkRESTMapping configmaps RESTScopeNameNamespace)).
  - apply resolves_cfg1. reflexivity.
  - reflexivity.
  - intros H; discriminate H.
  - intros H; discriminate H.
  - intros H; discriminate H.
  - intros H; discriminate H.
Defined.

End MoreExamples.

Section DispatcherExamples.

Import MemCluster MemRegistry.

Lemma applyRequest_propagates_errors_witness :
  fst (applyRequest cluster "create" cfg1 refused)
  = Returned (cfg1, (None, Some forbidden))
  /\ (fst (applyRequest cluster "get" cfg1 refused)
      = Returned (cfg1, (None, Some forbidden))
      /\ fst (applyRequest cluster "update" cfg1 refused)
         = Returned (cfg1, (None, Some forbidden)))
  /\ fst (applyRequest cluster "delete" cfg1 refused)
     = Returned (cfg1, (None, Some forbidden))
  /\ fst (applyRequest readOnlyCluster "update" cfg1 (bound withCfg1))
     = Returned (SetResourceVersion "7" cfg1, (None, Some forbidden)).
Proof.
  pose proof (applyRequest_propagates_errors cluster cfg1 refused
                (mkHandle configmaps "locked") eq_refl) as Hrefused.
  pose proof (applyRequest_propagates_errors readOnlyCluster cfg1
                (bound withCfg1) (mkHandle configmaps "ns1") eq_refl) as Hfrozen.
  split; [|split; [|split]].
  - apply (proj1 Hrefused forbidden withCfg1); reflexivity.
  - apply (proj1 (proj2 Hrefused) forbidden withCfg1); reflexivity.
  - apply (proj1 (proj2 (proj2 Hrefused)) forbidden withCfg1); reflexivity.
  - apply (proj2 (proj2 (proj2 Hfrozen)) (SetResourceVersion "7" cfg1) withCfg1
                 forbidden withCfg1); reflexivity.
Defined.

Lemma applyRequest_no_retry_witness :
  exists evs,
    trace (snd (applyRequest cluster "update" cfg1 (bound withCfg1)))
    = ([] ++ evs)%list
    /\ Forall (on_handle (mkHandle configmaps "ns1")) evs
    /\ store_requests evs <= 2
    /\ dr (snd (applyRequest cluster "update" cfg1 (bound withCfg1)))
       = Some (mkHandle configmaps "ns1").
Proof.
  apply (applyRequest_no_retry cluster "update" cfg1 (bound withCfg1)
           (mkHandle configmaps "ns1")).
  reflexivity.
Defined.

Lemma applyRequest_keeps_object_witness :
  same_but_version cfg1 (SetResourceVersion "7" cfg1)
  /\ ("update" <> "update" -> SetResourceVersion "7" cfg1 = cfg1).
Proof.
  apply (applyRequest_keeps_object cluster "update" cfg1
           (SetResourceVersion "7" cfg1)
           (Some (SetResourceVersion "71" cfg1), None)
           (bound withCfg1)
           (snd (applyRequest cluster "update" cfg1 (bound withCfg1)))).
  reflexivity.
Defined.

Lemma IsClusterConfirmed_edge_records_witness :
  IsClusterConfirmed cluster (start pending)
  = (Returned (false, "", None),
     mkWorld pending None [EvConfigMapGet "litmus" PortalConfigName])
  /\ fst (IsClusterConfirmed cluster (start keyless))
     = Returned (true, "", None).
Proof.
  split.
  - apply (proj1 (IsClusterConfirmed_edge_records cluster (start pending)
                    (mkConfigMap {[ "is_cluster_confirmed" := "false";
                                    "cluster_key" := "abc" ]})
                    pending eq_refl eq_refl)).
    vm_compute. intros H; discriminate H.
  - apply (proj2 (IsClusterConfirmed_edge_records cluster (start keyless)
                    (mkConfigMap {[ "is_cluster_confirmed" := "true" ]})
                    keyless eq_refl eq_refl)); reflexivity.
Defined.

Lemma ClusterRegister_outcomes_witness :
  ClusterRegister cluster writer handshake (start (mkMemStore [] None false))
  = (Returned (false, Some unreachable), start (mkMemStore [] None false))
  /\ ClusterRegister cluster writer handshake (start emptyStore)
     = (Returned (true, None),
        mkWorld registered None [EvLog "Configmap created"])
  /\ ClusterRegister cluster writer handshake (start registered)
     = (Returned (false, Some (alreadyExists PortalConfigName)),
        start registered).
Proof.
  split; [|split].
  - apply (proj1 (ClusterRegister_outcomes cluster writer handshake
                    (start (mkMemStore [] None false)))).
    reflexivity.
  - exact (proj2 (ClusterRegister_outcomes cluster writer handshake
                    (start emptyStore))
                 eq_refl
                 (inl (mkConfigMapObject "ConfigMap" "v1" PortalConfigName
                         {[ "is_cluster_confirmed" := "true";
                            "cluster_key" := "abc";
                            "cluster_id" := "123" ]}))
                 registered eq_refl).
  - exact (proj2 (ClusterRegister_outcomes cluster writer handshake
                    (start registered))
                 eq_refl (inr (alreadyExists PortalConfigName)) registered
                 eq_refl).
Defined.

Lemma ClusterRegister_then_confirmed_witness :
  fst (IsClusterConfirmed cluster
         (snd (ClusterRegister cluster writer handshake (start emptyStore))))
  = Returned (true, "abc", None).
Proof.
  exact (ClusterRegister_then_confirmed cluster writer handshake
           (start emptyStore) registry_keeps_record eq_refl).
Defined.

Lemma ClusterRegister_at_most_once_witness :
  Forall (fun outcome =>
            exists e, outcome = Returned (false, Some e)
                      /\ IsAlreadyExists (Some e) = true)
         (fst (registrations cluster writer
                 [∅; handshake; {[ "KEY" := "other" ]}]
                 (snd (ClusterRegister cluster writer handshake
                         (start emptyStore))))).
Proof.
  apply (ClusterRegister_at_most_once cluster writer handshake
           [∅; handshake; {[ "KEY" := "other" ]}]
           (start emptyStore) registry_refuses_for_good).
  reflexivity.
Defined.

End DispatcherExamples.
